(** * website-review-mcp: site discovery, robots policy and link health

    A shallow embedding of the crawl engine of the repository
    ([src/utils.ts], [src/tools/crawl.ts], [src/tools/broken-links.ts])
    and the properties stated about it.

    Conventions of the embedding.
    - JS strings are [string]s (code units below 256).
    - JS numbers that the caller chooses freely ([maxDepth], [maxPages])
      are rationals [Q]: the tool schema declares them as [number], so
      they need not be integers; counters and HTTP statuses are [Z];
      [Map.size] and array lengths are [nat].
    - A JS [Map<string, V>] is an association list in insertion order with
      [Map_set] overwriting in place, a [Set<string>] is a duplicate-free
      list in insertion order.
    - Awaiting a promise yields an [Outcome]: a value or a thrown error.
    - The network, the clock and the platform classes [URL] and [RegExp]
      are interfaces (type classes); the development is parametric in
      them, with one concrete instance each for the worked examples. *)

From Stdlib Require Import String Ascii List ZArith Lia Bool Arith.
From Stdlib Require Import QArith Qround Lqa.
Close Scope Q_scope.
Import ListNotations.
Open Scope string_scope.
Open Scope bool_scope.

Set Implicit Arguments.

(* ================================================================== *)
(** ** JS string methods used by the sources *)

Module Str.

(** [s.startsWith(p)] *)
Fixpoint startsWith (s p : string) {struct p} : bool :=
  match p, s with
  | EmptyString, _ => true
  | String _ _, EmptyString => false
  | String a p', String b s' => Ascii.eqb a b && startsWith s' p'
  end.

Fixpoint drop (n : nat) (s : string) : string :=
  match n, s with
  | O, _ => s
  | S _, EmptyString => EmptyString
  | S n', String _ s' => drop n' s'
  end.

(** [s.replace(pat, rep)] with a string pattern: the first occurrence. *)
Fixpoint replace (s pat rep : string) : string :=
  if startsWith s pat then rep ++ drop (String.length pat) s
  else match s with
       | EmptyString => EmptyString
       | String c s' => String c (replace s' pat rep)
       end.

(** [s.replace(/\*/g, '.*')] *)
Fixpoint replaceStars (s : string) : string :=
  match s with
  | EmptyString => EmptyString
  | String c s' =>
      if Ascii.eqb c "*" then String "." (String "*" (replaceStars s'))
      else String c (replaceStars s')
  end.

(** [s.includes(p)] *)
Fixpoint includes (s p : string) : bool :=
  startsWith s p ||
  match s with
  | EmptyString => false
  | String _ s' => includes s' p
  end.

(** White space of ECMAScript among the code units below 256:
    TAB, LF, VT, FF, CR, SP and NBSP. *)
Definition isWhiteSpace (c : ascii) : bool :=
  let n := nat_of_ascii c in
  ((9 <=? n)%nat && (n <=? 13)%nat) || (n =? 32)%nat || (n =? 160)%nat.

Fixpoint trimStart (s : string) : string :=
  match s with
  | EmptyString => EmptyString
  | String c s' => if isWhiteSpace c then trimStart s' else s
  end.

(** Removes the white space at the end: a character is kept when it is
    not white space or when something is kept after it. *)
Fixpoint trimEnd (s : string) : string :=
  match s with
  | EmptyString => EmptyString
  | String c s' =>
      match trimEnd s' with
      | EmptyString => if isWhiteSpace c then EmptyString
                       else String c EmptyString
      | t => String c t
      end
  end.

(** [s.trim()] *)
Definition trim (s : string) : string := trimEnd (trimStart s).

(** [s.split(sep)] for a separator of one character: always at least
    one piece. *)
Fixpoint split (sep : ascii) (s : string) : list string :=
  match s with
  | EmptyString => [EmptyString]
  | String c s' =>
      if Ascii.eqb c sep then EmptyString :: split sep s'
      else match split sep s' with
           | [] => [String c EmptyString]
           | l :: ls => String c l :: ls
           end
  end.

(** [s.split('\n')] *)
Definition splitLines (s : string) : list string := split "010" s.

(** [parts.join(sep)] *)
Fixpoint join (sep : string) (parts : list string) : string :=
  match parts with
  | [] => EmptyString
  | [p] => p
  | p :: ps => p ++ sep ++ join sep ps
  end.

(** JS truthiness of a string. *)
Definition truthy (s : string) : bool :=
  match s with EmptyString => false | _ => true end.

End Str.

(* ================================================================== *)
(** ** Promises and exceptions *)

(** A JS error value as the sources inspect it: [error.code],
    [error instanceof Error], [error.message] and [String(error)]. *)
Record JsError : Type := mkJsError {
  err_code : option string;
  err_instanceofError : bool;
  err_message : string;
  err_toString : string
}.

(** [error instanceof Error ? error.message : String(error)] *)
Definition errorMsgOf (e : JsError) : string :=
  if err_instanceofError e then err_message e else err_toString e.

Inductive Outcome (A : Type) : Type :=
| Returned (a : A)
| Thrown (e : JsError).
Arguments Returned {A} a.
Arguments Thrown {A} e.

(* ================================================================== *)
(** ** JS collections *)

Section Collections.
Variable V : Type.

(** [Map<string, V>], insertion ordered. *)
Definition JsMap := list (string * V).

Fixpoint Map_has (m : JsMap) (k : string) : bool :=
  match m with
  | [] => false
  | (k', _) :: m' => String.eqb k' k || Map_has m' k
  end.

(** [m.set(k, v)]: an existing key keeps its position. *)
Fixpoint Map_set (m : JsMap) (k : string) (v : V) : JsMap :=
  match m with
  | [] => [(k, v)]
  | (k', v') :: m' =>
      if String.eqb k' k then (k, v) :: m' else (k', v') :: Map_set m' k v
  end.

Definition Map_size (m : JsMap) : nat := List.length m.
Definition Map_keys (m : JsMap) : list string := map fst m.
Definition Map_values (m : JsMap) : list V := map snd m.
End Collections.

(** [Set<string>], insertion ordered. *)
Definition JsSet := list string.

Definition Set_has (s : JsSet) (x : string) : bool :=
  existsb (String.eqb x) s.

Definition Set_add (s : JsSet) (x : string) : JsSet :=
  if Set_has s x then s else (s ++ [x])%list.

(** [new Set(xs)] and the loops [for (x of xs) s.add(x)]. *)
Definition Set_addAll (s : JsSet) (xs : list string) : JsSet :=
  fold_left Set_add xs s.

(** Comparisons of JS numbers, an integer counter against a number the
    caller gave. *)
Module Num.

(** [n > x] *)
Definition gt (n : Z) (x : Q) : bool := negb (Qle_bool (inject_Z n) x).

(** [n >= x] *)
Definition ge (n : Z) (x : Q) : bool := Qle_bool x (inject_Z n).

(** [n < x] *)
Definition lt (n : Z) (x : Q) : bool := negb (Qle_bool x (inject_Z n)).

(** The integer part of a number, as the array methods take it
    (truncation towards zero). *)
Definition trunc (x : Q) : Z :=
  if Qle_bool 0 x then Qfloor x else Qceiling x.

End Num.

(** [arr.slice(0, end)]: [end] is truncated to an integer, and a
    negative one counts from the end of the array. *)
Definition slice0 {A : Type} (arr : list A) (end_ : Q) : list A :=
  if (Num.trunc end_ <? 0)%Z
  then firstn (Z.to_nat (Z.of_nat (List.length arr) + Num.trunc end_)) arr
  else firstn (Z.to_nat (Num.trunc end_)) arr.

(* ================================================================== *)
(** ** Platform interfaces *)

(** The [RegExp] class of the platform: [new RegExp(source)] throws a
    SyntaxError on an invalid source ([None]); [re.test(s)] searches [s]
    for a match. *)
Class RegExpImpl : Type := {
  RegExp : Type;
  newRegExp : string -> option RegExp;
  test : RegExp -> string -> bool
}.

(** The WHATWG [URL] class: [new URL(s)] and [new URL(s, base)] throw on
    failure ([None]); the getters and [toString()] are total. *)
Class URLImpl : Type := {
  URL : Type;
  newURL : string -> option URL;
  newURLWithBase : string -> string -> option URL;
  protocol : URL -> string;
  host : URL -> string;
  hostname : URL -> string;
  pathname : URL -> string;
  origin : URL -> string;
  toString : URL -> string
}.

(* ================================================================== *)
(** ** Robots policy: [parseRobotsText] of [src/utils.ts] *)

Module Robots.
Section WithRegExp.
Context {RE : RegExpImpl}.

(** The variables of the parsing loop. *)
Record ParseState : Type := mkParseState {
  currentAgent : string;
  allow : list RegExp;
  disallow : list RegExp;
  canSitemap : bool
}.

Definition initState : ParseState :=
  mkParseState "" [] [] true.

(** [new RegExp(`^${path.replace(/\*/g, '.*')}`)] *)
Definition compilePattern (path : string) : option RegExp :=
  newRegExp ("^" ++ Str.replaceStars path).

(** One iteration of [for (const line of lines)]; [None] when the
    [RegExp] constructor throws. *)
Definition step (userAgent : string) (st : ParseState) (line : string)
  : option ParseState :=
  let trimmed := Str.trim line in
  if Str.startsWith trimmed "User-agent:" then
    let agent := Str.trim (Str.replace trimmed "User-agent:" "") in
    if String.eqb agent userAgent || String.eqb agent "*" then
      Some (mkParseState agent [] [] (canSitemap st))
    else Some st
  else if Str.truthy (currentAgent st) && Str.startsWith trimmed "Allow:" then
    let path := Str.trim (Str.replace trimmed "Allow:" "") in
    if Str.truthy path then
      match compilePattern path with
      | Some re =>
          Some (mkParseState (currentAgent st) (allow st ++ [re])%list
                             (disallow st) (canSitemap st))
      | None => None
      end
    else Some st
  else if Str.truthy (currentAgent st) && Str.startsWith trimmed "Disallow:" then
    let path := Str.trim (Str.replace trimmed "Disallow:" "") in
    if Str.truthy path then
      match compilePattern path with
      | Some re =>
          Some (mkParseState (currentAgent st) (allow st)
                             (disallow st ++ [re])%list (canSitemap st))
      | None => None
      end
    else Some st
  else if Str.startsWith trimmed "Sitemap:" then
    Some (mkParseState (currentAgent st) (allow st) (disallow st) true)
  else Some st.

Fixpoint parseLines (userAgent : string) (st : ParseState)
         (lines : list string) : option ParseState :=
  match lines with
  | [] => Some st
  | line :: rest =>
      match step userAgent st line with
      | Some st' => parseLines userAgent st' rest
      | None => None
      end
  end.

(** The loop [for (const pattern of pats) if (pattern.test(path))
    return ret;]: [Some ret] on an early return, [None] when the loop
    falls through. *)
Fixpoint firstMatch (pats : list RegExp) (path : string) (ret : bool)
  : option bool :=
  match pats with
  | [] => None
  | p :: ps => if test p path then Some ret else firstMatch ps path ret
  end.

(** The returned object: the closure [canCrawl] reads the variables
    [allow] and [disallow] as they are when the loop has ended. *)
Record Policy : Type := mkPolicy {
  pol_allow : list RegExp;
  pol_disallow : list RegExp;
  pol_canSitemap : bool
}.

Definition canCrawl (p : Policy) (path : string) : bool :=
  match firstMatch (pol_disallow p) path false with
  | Some r => r
  | None =>
      match firstMatch (pol_allow p) path true with
      | Some r => r
      | None => true
      end
  end.

(** [parseRobotsText(robotsContent, userAgent)]; the default of
    [userAgent] is ["*"]. [None]: a SyntaxError of [RegExp] escapes. *)
Definition parseRobotsText (robotsContent userAgent : string)
  : option Policy :=
  match parseLines userAgent initState (Str.splitLines robotsContent) with
  | Some st => Some (mkPolicy (allow st) (disallow st) (canSitemap st))
  | None => None
  end.

End WithRegExp.
End Robots.

(* ================================================================== *)
(** ** A [RegExp] instance for the worked examples

    The sources build their patterns as [^] followed by a robots path in
    which every [*] became [.*].  This instance implements the part of
    the ECMAScript pattern language such sources usually stay in:
    literal characters, [.], the quantifiers [*], [+], [?] (also lazy)
    and the assertions [^] (first character only) and [$].  Sources with
    groups, classes, escapes, braces or alternation are outside it and
    are answered with [None]. *)

Module JsRegex.

Inductive re : Type :=
| Empty | Eps | Chr (c : ascii) | Dot | EndA
| Cat (r1 r2 : re) | Alt (r1 r2 : re) | Star (r : re).

Record compiled : Type := mkCompiled { anchored : bool; body : re }.

Definition isQuant (c : ascii) : bool :=
  Ascii.eqb c "*" || Ascii.eqb c "+" || Ascii.eqb c "?".

Definition unsupported (c : ascii) : bool :=
  existsb (Ascii.eqb c)
    ["\"; "("; ")"; "["; "]"; "{"; "}"; "|"; "^"]%char.

Definition applyQuant (q : ascii) (a : re) : re :=
  if Ascii.eqb q "*" then Star a
  else if Ascii.eqb q "+" then Cat a (Star a)
  else Alt a Eps.

Definition atomOf (c : ascii) : re :=
  if Ascii.eqb c "." then Dot else Chr c.

Fixpoint parseBody (s : string) : option re :=
  match s with
  | EmptyString => Some Eps
  | String c s1 =>
      if isQuant c || unsupported c then None
      else if Ascii.eqb c "$" then option_map (Cat EndA) (parseBody s1)
      else
        match s1 with
        | String q s2 =>
            if isQuant q then
              match s2 with
              | String l s3 =>
                  if Ascii.eqb l "?"
                  then option_map (Cat (applyQuant q (atomOf c))) (parseBody s3)
                  else option_map (Cat (applyQuant q (atomOf c))) (parseBody s2)
              | EmptyString => Some (applyQuant q (atomOf c))
              end
            else option_map (Cat (atomOf c)) (parseBody s1)
        | EmptyString => Some (atomOf c)
        end
  end.

Definition compile (src : string) : option compiled :=
  match src with
  | String "^" s => option_map (mkCompiled true) (parseBody s)
  | _ => option_map (mkCompiled false) (parseBody src)
  end.

Fixpoint nullable (atEnd : bool) (r : re) : bool :=
  match r with
  | Empty | Chr _ | Dot => false
  | Eps | Star _ => true
  | EndA => atEnd
  | Cat r1 r2 => nullable atEnd r1 && nullable atEnd r2
  | Alt r1 r2 => nullable atEnd r1 || nullable atEnd r2
  end.

(** [.] matches everything but the line terminators. *)
Definition isLineTerminator (c : ascii) : bool :=
  Ascii.eqb c "010" || Ascii.eqb c "013".

(** Brzozowski derivative: what remains to be matched after [c]. *)
Fixpoint der (c : ascii) (r : re) : re :=
  match r with
  | Empty | Eps | EndA => Empty
  | Chr a => if Ascii.eqb a c then Eps else Empty
  | Dot => if isLineTerminator c then Empty else Eps
  | Cat r1 r2 =>
      Alt (Cat (der c r1) r2)
          (if nullable false r1 then der c r2 else Empty)
  | Alt r1 r2 => Alt (der c r1) (der c r2)
  | Star r1 => Cat (der c r1) (Star r1)
  end.

Definition isEmptyString (s : string) : bool :=
  match s with EmptyString => true | _ => false end.

(** Some prefix of [s] matches [r]. *)
Fixpoint matchPrefix (r : re) (s : string) : bool :=
  nullable (isEmptyString s) r ||
  match s with
  | EmptyString => false
  | String c s' => matchPrefix (der c r) s'
  end.

(** Some substring of [s] matches [r]. *)
Fixpoint matchAnywhere (r : re) (s : string) : bool :=
  matchPrefix r s ||
  match s with
  | EmptyString => false
  | String _ s' => matchAnywhere r s'
  end.

Definition testCompiled (p : compiled) (s : string) : bool :=
  if anchored p then matchPrefix (body p) s else matchAnywhere (body p) s.

End JsRegex.

#[export] Instance JsRegexImpl : RegExpImpl := {|
  RegExp := JsRegex.compiled;
  newRegExp := JsRegex.compile;
  test := JsRegex.testCompiled
|}.

(** Line feed, to write robots documents. *)
Definition LF : string := String "010" EmptyString.

Definition canCrawlText (robots agent path : string) : option bool :=
  option_map (fun p => Robots.canCrawl p path)
             (Robots.parseRobotsText (RE := JsRegexImpl) robots agent).


(* ================================================================== *)
(** ** URL normalisation: [normalizeUrl] and [isSameDomain] of [src/utils.ts] *)

Section WithURL.
Context {U : URLImpl}.

(** [baseUrl?: string]: [None] is [undefined]; [!baseUrl] also holds
    for the empty string. *)
Definition normalizeUrl (url : string) (baseUrl : option string) : string :=
  if Str.startsWith url "http://" || Str.startsWith url "https://" then url
  else
    match baseUrl with
    | None => url
    | Some b =>
        if negb (Str.truthy b) then url
        else
          match newURL b with
          | None => url
          | Some base =>
              if Str.startsWith url "/" then
                protocol base ++ "//" ++ host base ++ url
              else if Str.startsWith url "#" || Str.startsWith url "?" then
                b ++ url
              else
                match newURLWithBase url b with
                | Some u => toString u
                | None => url
                end
          end
    end.

Definition isSameDomain (url1 url2 : string) : bool :=
  match newURL url1, newURL url2 with
  | Some a, Some b => String.eqb (hostname a) (hostname b)
  | _, _ => false
  end.


(** [urlObj.hostname.replace(/www\./, '')]: the first ["www."],
    wherever it stands. *)
Definition extractDomain (url : string) : string :=
  match newURL url with
  | Some u => Str.replace (hostname u) "www." ""
  | None => "unknown-domain"
  end.
End WithURL.

(* ================================================================== *)
(** ** A [URL] instance for the worked examples

    The WHATWG URL parser restricted to the URLs a crawl of a plain site
    meets: scheme [http] or [https], a host of lower-case letters,
    digits, [.] and [-] (no user info, no port), and path, query and
    fragment over characters that the parser neither strips nor
    percent-encodes.  Inputs outside this fragment are answered with
    [None]. *)

Module Whatwg.

Record url : Type := mkUrl {
  u_scheme : string;
  u_host : string;
  u_path : list string;
  u_query : option string;
  u_fragment : option string
}.

Definition inRange (lo hi : nat) (c : ascii) : bool :=
  let n := nat_of_ascii c in ((lo <=? n)%nat && (n <=? hi)%nat).

Definition isAlnum (c : ascii) : bool :=
  inRange 48 57 c || inRange 65 90 c || inRange 97 122 c.

Definition isHostChar (c : ascii) : bool :=
  inRange 48 57 c || inRange 97 122 c || Ascii.eqb c "." || Ascii.eqb c "-".

(** Characters copied as they are into path, query and fragment. *)
Definition isPlain (c : ascii) : bool :=
  isAlnum c || existsb (Ascii.eqb c) ["-"; "."; "_"; "~"; "/"; "="; "&"; "+"]%char.

Fixpoint all (p : ascii -> bool) (s : string) : bool :=
  match s with
  | EmptyString => true
  | String c s' => p c && all p s'
  end.

(** Cuts [s] before the first character satisfying [stop]. *)
Fixpoint cut (stop : ascii -> bool) (s : string) : string * string :=
  match s with
  | EmptyString => (EmptyString, EmptyString)
  | String c s' =>
      if stop c then (EmptyString, s)
      else let '(a, b) := cut stop s' in (String c a, b)
  end.

Definition tail (s : string) : string :=
  match s with EmptyString => EmptyString | String _ s' => s' end.

(** Path state of the parser: [segs] are the segments still to read,
    the last one ends at the end of the input, the others at a [/]. *)
Fixpoint pathState (path : list string) (segs : list string) : list string :=
  match segs with
  | [] => path
  | seg :: rest =>
      let last := match rest with [] => true | _ => false end in
      if String.eqb seg ".." then
        let path' := removelast path in
        pathState (if last then path' ++ [EmptyString] else path')%list rest
      else if String.eqb seg "." then
        pathState (if last then path ++ [EmptyString] else path)%list rest
      else pathState (path ++ [seg])%list rest
  end.

(** Query and fragment of a remainder that starts at [?], at [#] or
    is empty. *)
Definition parseTail (s : string) : option (option string * option string) :=
  let '(q, f) :=
    match s with
    | String "?" s' =>
        let '(q, r) := cut (Ascii.eqb "#") s' in
        (Some q, match r with EmptyString => None | _ => Some (tail r) end)
    | String "#" s' => (None, Some s')
    | _ => (None, None)
    end in
  let ok o := match o with Some x => all isPlain x | None => true end in
  if ok q && ok f then Some (q, f) else None.

Definition isDelim (c : ascii) : bool :=
  Ascii.eqb c "?" || Ascii.eqb c "#".

(** A path-absolute remainder: [/a/b?q#f], or nothing at all. *)
Definition parseFromPath (scheme hst rest : string) : option url :=
  let '(p, t) := cut isDelim rest in
  if all isPlain p then
    match parseTail t with
    | Some (q, f) =>
        let p' := if Str.startsWith p "/" then tail p else p in
        Some (mkUrl scheme hst (pathState [] (Str.split "/" p')) q f)
    | None => None
    end
  else None.

Definition parseAfterScheme (scheme rest : string) : option url :=
  let '(h, r) := cut (fun c => Ascii.eqb c "/" || isDelim c) rest in
  if Str.truthy h && all isHostChar h then parseFromPath scheme h r
  else None.

(** [new URL(s)] *)
Definition parse (s : string) : option url :=
  if Str.startsWith s "https://" then parseAfterScheme "https" (Str.drop 8 s)
  else if Str.startsWith s "http://" then parseAfterScheme "http" (Str.drop 7 s)
  else None.

(** [new URL(rel, base)] *)
Definition parseWithBase (rel base : string) : option url :=
  match parse base with
  | None => None
  | Some b =>
      if Str.startsWith rel "https://" || Str.startsWith rel "http://"
      then parse rel
      else if Str.startsWith rel "//" then None
      else if Str.startsWith rel "/" then
        parseFromPath (u_scheme b) (u_host b) rel
      else
        let '(p, t) := cut isDelim rel in
        if all isPlain p then
          match parseTail t with
          | Some (q, f) =>
              match p, q with
              | EmptyString, None =>
                  Some (mkUrl (u_scheme b) (u_host b) (u_path b) (u_query b) f)
              | EmptyString, Some _ =>
                  Some (mkUrl (u_scheme b) (u_host b) (u_path b) q f)
              | _, _ =>
                  Some (mkUrl (u_scheme b) (u_host b)
                          (pathState (removelast (u_path b)) (Str.split "/" p))
                          q f)
              end
          | None => None
          end
        else None
  end.

Definition getPathname (u : url) : string :=
  "/" ++ Str.join "/" (u_path u).

Definition getOrigin (u : url) : string :=
  u_scheme u ++ "://" ++ u_host u.

Definition href (u : url) : string :=
  getOrigin u ++ getPathname u
    ++ match u_query u with Some q => "?" ++ q | None => "" end
    ++ match u_fragment u with Some f => "#" ++ f | None => "" end.

End Whatwg.

#[export] Instance WhatwgURL : URLImpl := {|
  URL := Whatwg.url;
  newURL := Whatwg.parse;
  newURLWithBase := Whatwg.parseWithBase;
  protocol := fun u => Whatwg.u_scheme u ++ ":";
  host := Whatwg.u_host;
  hostname := Whatwg.u_host;
  pathname := Whatwg.getPathname;
  origin := Whatwg.getOrigin;
  toString := Whatwg.href
|}.


(* ================================================================== *)
(** ** The crawler: [src/tools/crawl.ts] *)

(** What the cheerio selectors of [crawlPage] read from a fetched page:
    the title, the [href] attributes of [a[href]] in document order and
    the [noindex] directive. *)
Record Document : Type := mkDocument {
  doc_title : string;
  doc_hrefs : list string;
  doc_noindex : bool
}.

(** A parsed sitemap: [parsed.urlset.url] when both exist, each entry
    with its [loc[0]] when it has one. *)
Definition SitemapXml := option (list (option string)).

(** The answer to [axios.head].  [resp_request] is [response.request]:
    it may be absent, and its [url] property may be undefined (it is
    on the request objects of Node).  [resp_finalUrl] is the URL the
    last request of the redirect chain went to; [checkLink] does not
    read it. *)
Record HeadResponse : Type := mkHeadResponse {
  resp_status : Z;
  resp_statusText : string;
  resp_request : option (option string);
  resp_location : option string;
  resp_finalUrl : string
}.

(** [response.data] of a request whose body axios may have parsed: a
    string, or another value (object, array, number, boolean, null)
    when the body was JSON. *)
Inductive ResponseData : Type :=
| TextData (text : string)
| OtherData.

(** The outside world: network, timers and clock.  Every call may
    change the world. *)
Class Platform : Type := {
  World : Type;
  sleep : Z -> World -> World;
  (** [new Date().toISOString()] and [Date.now()] *)
  isoNow : World -> string;
  dateNow : World -> Z;
  (** [axios.get(url, ...)] followed by [cheerio.load] *)
  getPage : string -> World -> World * Outcome Document;
  (** [axios.get(sitemapUrl)] followed by [parseStringPromise] *)
  getSitemap : string -> World -> World * Outcome SitemapXml;
  (** [axios.get(robotsUrl)], its [response.data] *)
  getRobots : string -> World -> World * Outcome ResponseData;
  (** [axios.head(url, { timeout, maxRedirects: 5, ... })] *)
  headRequest : string -> Z -> World -> World * Outcome HeadResponse
}.

Record Links : Type := mkLinks {
  internal : list string;
  external : list string
}.

(** [PageMetadata] of [src/types.ts]; the content fields the crawler
    only copies (description, headings, social tags, word count) are
    left out. *)
Record PageMetadata : Type := mkPageMetadata {
  url : string;
  title : string;
  links : Links;
  noindex : bool
}.

Record CrawlError : Type := mkCrawlError {
  ce_url : string;
  ce_error : string;
  ce_timestamp : string
}.

Record CrawlResult : Type := mkCrawlResult {
  cr_domain : string;
  cr_startUrl : string;
  cr_timestamp : string;
  cr_pages : list PageMetadata;
  cr_sitemapFound : bool;
  cr_totalPages : nat;
  cr_errors : list CrawlError
}.

(** The options of [crawlWebsite]; [None] is an omitted option.  The
    tool schema of [src/index.ts] declares [maxDepth] (1..10) and
    [maxPages] (1..500) as [number] and nothing checks them: they are
    the numbers a JSON request can carry, finite and not necessarily
    integers, hence rationals. *)
Record CrawlOptions : Type := mkCrawlOptions {
  opt_url : string;
  opt_maxDepth : option Q;
  opt_maxPages : option Q;
  opt_respectRobotsTxt : option bool;
  opt_rateLimit : option Z
}.

Definition DEFAULT_MAX_DEPTH : Q := 3.
Definition RATE_LIMIT_MS : Z := 1000.

Definition orDefault {A : Type} (o : option A) (d : A) : A :=
  match o with Some a => a | None => d end.

Section Crawl.
Context {U : URLImpl} {RE : RegExpImpl} {P : Platform}.

(** The mutable objects one crawl shares: the [pages] map, the
    [errors] array and the world.  [discovered] is a ghost log: the
    URL and the depth of every [pages.set] of [recursiveCrawl]. *)
Record CrawlState : Type := mkCrawlState {
  pages : JsMap PageMetadata;
  errors : list CrawlError;
  world : World;
  discovered : list (string * Z)
}.

(** The body of [$('a[href]').each(...)]. *)
Definition addLink (pageUrl : string) (acc : JsSet * JsSet) (href : string)
  : JsSet * JsSet :=
  let '(internalLinks, externalLinks) := acc in
  if Str.truthy href then
    let normalized := normalizeUrl href (Some pageUrl) in
    if Str.startsWith normalized "http" then
      if isSameDomain normalized pageUrl
      then (Set_add internalLinks normalized, externalLinks)
      else (internalLinks, Set_add externalLinks normalized)
    else acc
  else acc.

(** [crawlPage(url, domain, rateLimit)]: the whole body is inside
    [try { ... } catch { return null; }]. *)
Definition crawlPage (pageUrl : string) (rateLimit : Z) (w : World)
  : World * Outcome (option PageMetadata) :=
  let w1 := if (rateLimit >? 0)%Z then sleep rateLimit w else w in
  match getPage pageUrl w1 with
  | (w2, Returned doc) =>
      let '(internalLinks, externalLinks) :=
        fold_left (addLink pageUrl) (doc_hrefs doc) ([], []) in
      (w2, Returned (Some (mkPageMetadata pageUrl (doc_title doc)
                             (mkLinks internalLinks externalLinks)
                             (doc_noindex doc))))
  | (w2, Thrown _) => (w2, Returned None)
  end.

Definition pushError (pageUrl : string) (e : JsError) (st : CrawlState)
  : CrawlState :=
  mkCrawlState (pages st)
    (errors st ++ [mkCrawlError pageUrl (errorMsgOf e) (isoNow (world st))])%list
    (world st) (discovered st).

Definition withWorld (st : CrawlState) (w : World) : CrawlState :=
  mkCrawlState (pages st) (errors st) w (discovered st).

(** The loop [for (const link of metadata.links.internal)] with the
    recursive call as [rec]. *)
Definition crawlLinks (rec : string -> CrawlState -> option CrawlState)
           (maxPages : Q)
  : list string -> CrawlState -> option CrawlState :=
  fix loop (ls : list string) (st : CrawlState) : option CrawlState :=
    match ls with
    | [] => Some st
    | link :: rest =>
        if negb (Map_has (pages st) link)
           && Num.lt (Z.of_nat (Map_size (pages st))) maxPages
        then match rec link st with
             | Some st' => loop rest st'
             | None => None
             end
        else loop rest st
    end.

(** [recursiveCrawl]; [None] only when the fuel runs out. *)
Fixpoint recursiveCrawl (fuel : nat) (canCrawlFn : string -> bool)
         (maxDepth maxPages : Q) (rateLimit : Z)
         (pageUrl : string) (depth : Z) (st : CrawlState)
  : option CrawlState :=
  match fuel with
  | O => None
  | S fuel' =>
      if Num.gt depth maxDepth
         || Num.ge (Z.of_nat (Map_size (pages st))) maxPages
      then Some st
      else if Map_has (pages st) pageUrl then Some st
      else
        match newURL pageUrl with
        | None => Some st
        | Some urlObj =>
            if negb (canCrawlFn (pathname urlObj)) then Some st
            else
              match crawlPage pageUrl 0 (sleep rateLimit (world st)) with
              | (w, Returned (Some metadata)) =>
                  crawlLinks
                    (fun link s =>
                       recursiveCrawl fuel' canCrawlFn maxDepth maxPages
                                      rateLimit link (depth + 1)%Z s)
                    maxPages
                    (internal (links metadata))
                    (mkCrawlState (Map_set (pages st) pageUrl metadata)
                                  (errors st) w
                                  (discovered st ++ [(pageUrl, depth)])%list)
              | (w, Returned None) => Some (withWorld st w)
              | (w, Thrown e) => Some (pushError pageUrl e (withWorld st w))
              end
        end
  end.

(** [fetchSitemap]: every failure gives the empty list. *)
Definition fetchSitemap (sitemapUrl : string) (w : World)
  : World * list string :=
  match getSitemap sitemapUrl w with
  | (w', Returned (Some entries)) =>
      let urls :=
        flat_map (fun e => match e with
                           | Some loc => if Str.truthy loc then [loc] else []
                           | None => []
                           end) entries in
      (w', filter (fun u => isSameDomain u sitemapUrl) urls)
  | (w', Returned None) => (w', [])
  | (w', Thrown _) => (w', [])
  end.

(** [fetchRobotsTxt]: [response.data] as it comes; every failure gives
    the empty text. *)
Definition fetchRobotsTxt (baseUrl : string) (w : World)
  : World * ResponseData :=
  match newURLWithBase "/robots.txt" baseUrl with
  | Some u =>
      match getRobots (toString u) w with
      | (w', Returned data) => (w', data)
      | (w', Thrown _) => (w', TextData "")
      end
  | None => (w, TextData "")
  end.

(** [parseRobotsText(robotsTxt, 'Googlebot').canCrawl]: on a value that
    is not a string [robotsContent.split] is not a function and the
    call throws, as it does when [RegExp] rejects a pattern ([None]). *)
Definition robotsCanCrawl (robotsTxt : ResponseData)
  : option (string -> bool) :=
  match robotsTxt with
  | TextData text =>
      option_map Robots.canCrawl (Robots.parseRobotsText text "Googlebot")
  | OtherData => None
  end.

(** The loop over [sitemapPages.slice(0, maxPages)]; a rejected
    [crawlPage] would leave it through the enclosing [catch {}]. *)
Fixpoint crawlSitemapPages (rateLimit : Z) (urls : list string)
         (st : CrawlState) : CrawlState :=
  match urls with
  | [] => st
  | pageUrl :: rest =>
      match crawlPage pageUrl rateLimit (world st) with
      | (w, Returned (Some metadata)) =>
          crawlSitemapPages rateLimit rest
            (mkCrawlState (Map_set (pages st) pageUrl metadata)
                          (errors st) w (discovered st))
      | (w, Returned None) => crawlSitemapPages rateLimit rest (withWorld st w)
      | (w, Thrown _) => withWorld st w
      end
  end.

(** The errors of [parseRobotsText] when it throws: the one of
    [new RegExp], and the one of [robotsContent.split] on a value that
    has no such method. *)
Definition syntaxError : JsError :=
  mkJsError None true "Invalid regular expression" "SyntaxError".

Definition typeError : JsError :=
  mkJsError None true "robotsContent.split is not a function"
            "TypeError: robotsContent.split is not a function".

Definition robotsError (robotsTxt : ResponseData) : JsError :=
  match robotsTxt with
  | TextData _ => syntaxError
  | OtherData => typeError
  end.

Definition crawlFailed (e : JsError) : JsError :=
  mkJsError None true ("Crawl failed: " ++ errorMsgOf e)
            ("Error: Crawl failed: " ++ errorMsgOf e).

(** The body of [crawlWebsite] up to the point where the result is
    assembled: the final state and [sitemapFound].  [None] only when
    the fuel of [recursiveCrawl] runs out. *)
Definition crawlWebsiteRun (fuel : nat) (options : CrawlOptions) (w0 : World)
  : option (Outcome (CrawlState * bool)) :=
  let pageUrl := opt_url options in
  let maxDepth := orDefault (opt_maxDepth options) DEFAULT_MAX_DEPTH in
  let maxPages := orDefault (opt_maxPages options) 100%Q in
  let respectRobotsTxt := orDefault (opt_respectRobotsTxt options) true in
  let rateLimit := orDefault (opt_rateLimit options) RATE_LIMIT_MS in
  match newURL pageUrl with
  | None =>
      Some (Thrown (mkJsError None true ("Invalid URL: " ++ pageUrl)
                              ("Error: Invalid URL: " ++ pageUrl)))
  | Some u =>
      let st0 := mkCrawlState [] [] w0 [] in
      let '(w1, sitemapPages) := fetchSitemap (origin u ++ "/sitemap.xml") w0 in
      if (0 <? List.length sitemapPages)%nat then
        Some (Returned
                (crawlSitemapPages rateLimit (slice0 sitemapPages maxPages)
                                   (withWorld st0 w1), true))
      else
        let '(w2, robotsTxt) := fetchRobotsTxt pageUrl w1 in
        let canCrawlFn :=
          if respectRobotsTxt
          then robotsCanCrawl robotsTxt
          else Some (fun _ : string => true) in
        match canCrawlFn with
        | None => Some (Thrown (crawlFailed (robotsError robotsTxt)))
        | Some f =>
            match recursiveCrawl fuel f maxDepth maxPages rateLimit
                                 pageUrl 0%Z (withWorld st0 w2) with
            | Some st => Some (Returned (st, false))
            | None => None
            end
        end
  end.

(** [crawlWebsite]: the [CrawlResult] written and returned. *)
Definition crawlWebsite (fuel : nat) (options : CrawlOptions) (w0 : World)
  : option (Outcome CrawlResult) :=
  match crawlWebsiteRun fuel options w0 with
  | Some (Returned (st, sitemapFound)) =>
      Some (Returned
              (mkCrawlResult (extractDomain (opt_url options))
                             (opt_url options)
                             (isoNow (world st))
                             (Map_values (pages st))
                             sitemapFound
                             (Map_size (pages st))
                             (errors st)))
  | Some (Thrown e) => Some (Thrown e)
  | None => None
  end.

End Crawl.

(* ================================================================== *)
(** ** Link health and orphans: [src/tools/broken-links.ts] *)

Record LinkStatus : Type := mkLinkStatus {
  ls_url : string;
  ls_status : Z;
  ls_statusText : string;
  ls_isWorking : bool;
  ls_redirectUrl : option string;
  ls_redirectChainLength : Z;
  ls_responseTime : Z;
  ls_error : option string
}.

Record Summary : Type := mkSummary {
  total404 : nat;
  totalTimeouts : nat;
  totalRedirectChains : nat
}.

Record BrokenLinkResult : Type := mkBrokenLinkResult {
  bl_domain : string;
  bl_timestamp : string;
  brokenLinks : list LinkStatus;
  workingLinks : nat;
  totalChecked : nat;
  orphanedPages : list string;
  summary : Summary
}.

Record CheckLinksOptions : Type := mkCheckLinksOptions {
  clo_urls : option (list string);
  clo_domain : option string;
  clo_useCrawlData : option bool;
  clo_checkExternal : option bool;
  clo_externalTimeout : option Z;
  clo_rateLimit : option Z
}.

Definition DEFAULT_TIMEOUT : Z := 10000.
Definition LINK_RATE_LIMIT_MS : Z := 500.

(** The three filters of the summary. *)
Definition is404 (l : LinkStatus) : bool := (ls_status l =? 404)%Z.

(** [l.error?.includes('timeout')] *)
Definition isTimeout (l : LinkStatus) : bool :=
  match ls_error l with
  | Some e => Str.includes e "timeout"
  | None => false
  end.

Definition isRedirectChain (l : LinkStatus) : bool :=
  (ls_redirectChainLength l >? 2)%Z.

Definition summarize (broken : list LinkStatus) : Summary :=
  mkSummary (List.length (filter is404 broken))
            (List.length (filter isTimeout broken))
            (List.length (filter isRedirectChain broken)).

(** The candidate links of the crawl data, page by page: the internal
    links and, with [checkExternal], the external ones. *)
Definition pageLinks (checkExternal : bool) (page : PageMetadata)
  : list string :=
  (internal (links page)
   ++ (if checkExternal then external (links page) else []))%list.

(** [findOrphanedPages(domain, mission)]; [crawlData] is what
    [readJsonFile(mission.crawlDataPath)] gives, [None] for a missing
    file or one without [pages]. *)
Definition findOrphanedPages (domain : string)
           (crawlData : option (list PageMetadata)) : list string :=
  match crawlData with
  | None => []
  | Some crawlPages =>
      let allUrls := Set_addAll [] (map url crawlPages) in
      let referencedUrls :=
        Set_addAll [] (flat_map (fun p => internal (links p)) crawlPages) in
      let baseUrl := "https://" ++ domain in
      filter (fun u => negb (String.eqb u baseUrl)
                       && negb (Set_has referencedUrls u))
             allUrls
  end.

Section LinkCheck.
Context {U : URLImpl} {P : Platform}.

(** [requestUrl !== url] where [requestUrl] may be [undefined]. *)
Definition differsFrom (requestUrl : option string) (u : string) : bool :=
  match requestUrl with
  | Some r => negb (String.eqb r u)
  | None => true
  end.

(** [checkLink(url, timeout)]: the promise never rejects. *)
Definition checkLink (u : string) (timeout : Z) (w : World)
  : World * Outcome LinkStatus :=
  let startTime := dateNow w in
  match headRequest u timeout w with
  | (w', Returned response) =>
      let responseTime := (dateNow w' - startTime)%Z in
      let isWorking :=
        (resp_status response >=? 200)%Z && (resp_status response <? 400)%Z in
      let redirectChainLength :=
        match resp_request response with
        | Some requestUrl => if differsFrom requestUrl u then 1%Z else 0%Z
        | None => 0%Z
        end in
      (w', Returned (mkLinkStatus u (resp_status response)
                       (resp_statusText response) isWorking
                       (resp_location response) redirectChainLength
                       responseTime None))
  | (w', Thrown error) =>
      let responseTime := (dateNow w' - startTime)%Z in
      if match err_code error with
         | Some c => String.eqb c "ECONNABORTED"
         | None => false
         end
         || (err_instanceofError error
             && Str.includes (err_message error) "timeout")
      then (w', Returned (mkLinkStatus u 0 "Timeout" false None 0
                            responseTime (Some "Request timeout")))
      else (w', Returned (mkLinkStatus u 0 "Error" false None 0
                            responseTime (Some (errorMsgOf error))))
  end.

(** The variables of the checking loop. *)
Record CheckState : Type := mkCheckState {
  cs_broken : list LinkStatus;
  cs_working : nat;
  cs_world : World
}.

(** One iteration of [for (const url of allLinks)]. *)
Definition checkOne (domain : string) (externalTimeout rateLimit : Z)
           (st : CheckState) (u : string) : CheckState :=
  let w1 := sleep rateLimit (cs_world st) in
  let isInternal := isSameDomain u domain in
  let timeout := if isInternal then DEFAULT_TIMEOUT else externalTimeout in
  match checkLink u timeout w1 with
  | (w2, Returned status) =>
      if ls_isWorking status
      then mkCheckState (cs_broken st) (S (cs_working st)) w2
      else mkCheckState (cs_broken st ++ [status])%list (cs_working st) w2
  | (w2, Thrown error) =>
      mkCheckState
        (cs_broken st ++ [mkLinkStatus u 0 "Error" false None 0 0
                                       (Some (errorMsgOf error))])%list
        (cs_working st) w2
  end.

(** The candidate set [allLinks]. *)
Definition collectLinks (urls : list string) (useCrawlData checkExternal : bool)
           (crawlData : option (list PageMetadata)) : JsSet :=
  let fromCrawl :=
    if useCrawlData then
      match crawlData with
      | Some crawlPages =>
          Set_addAll [] (flat_map (pageLinks checkExternal) crawlPages)
      | None => []
      end
    else [] in
  Set_addAll fromCrawl urls.

(** [checkBrokenLinks(options)]; [readCrawlData domain] is the content
    of the crawl file of that domain, taken to hold pages of the shape
    of [PageMetadata].  The two thrown errors are the configuration
    errors; the calls that write to the file system
    ([createMissionControl], [writeJsonFile]) are taken to succeed, so
    the function says what a call that is not stopped by the file
    system returns. *)
Definition checkBrokenLinks (options : CheckLinksOptions)
           (readCrawlData : string -> option (list PageMetadata))
           (w0 : World) : Outcome BrokenLinkResult :=
  let urls := orDefault (clo_urls options) [] in
  let useCrawlData := orDefault (clo_useCrawlData options) true in
  let checkExternal := orDefault (clo_checkExternal options) false in
  let externalTimeout := orDefault (clo_externalTimeout options) DEFAULT_TIMEOUT in
  let rateLimit := orDefault (clo_rateLimit options) LINK_RATE_LIMIT_MS in
  let providedDomain := orDefault (clo_domain options) "" in
  let domain :=
    match urls with
    | first :: _ => extractDomain first
    | [] => providedDomain
    end in
  if negb (Str.truthy domain) then
    Thrown (mkJsError None true "Must provide domain or URLs for link checking"
              "Error: Must provide domain or URLs for link checking")
  else
    let allLinks :=
      collectLinks urls useCrawlData checkExternal (readCrawlData domain) in
    match allLinks with
    | [] => Thrown (mkJsError None true "No links found to check"
                      "Error: No links found to check")
    | _ =>
        let st := fold_left (checkOne domain externalTimeout rateLimit)
                            allLinks (mkCheckState [] 0 w0) in
        Returned (mkBrokenLinkResult domain (isoNow (cs_world st))
                    (cs_broken st) (cs_working st) (List.length allLinks)
                    (findOrphanedPages domain (readCrawlData domain))
                    (summarize (cs_broken st)))
    end.

End LinkCheck.

(* ================================================================== *)
(** ** A scripted site, to run the tools on concrete inputs *)

(** A site as a table: the pages that can be fetched, the sitemap and
    the robots document when they exist, and the answer to each [HEAD]
    probe.  Everything else fails the way axios does. *)
Record Site : Type := mkSite {
  site_pages : list (string * Document);
  site_sitemap : option SitemapXml;
  site_robots : option ResponseData;
  site_heads : list (string * Outcome HeadResponse)
}.

Fixpoint assoc {A : Type} (k : string) (l : list (string * A)) : option A :=
  match l with
  | [] => None
  | (k', a) :: l' => if String.eqb k' k then Some a else assoc k l'
  end.

Definition axiosNotFound : JsError :=
  mkJsError (Some "ERR_BAD_REQUEST") true
            "Request failed with status code 404"
            "AxiosError: Request failed with status code 404".

(** The error of axios when the [timeout] option expires. *)
Definition axiosTimeout : JsError :=
  mkJsError (Some "ECONNABORTED") true
            "timeout of 10000ms exceeded"
            "AxiosError: timeout of 10000ms exceeded".

Definition axiosNetworkError : JsError :=
  mkJsError (Some "ENOTFOUND") true
            "getaddrinfo ENOTFOUND"
            "Error: getaddrinfo ENOTFOUND".

Definition fromOption {A : Type} (o : option A) : Outcome A :=
  match o with Some a => Returned a | None => Thrown axiosNotFound end.

(** The world of a scripted site is its clock, in milliseconds. *)
Definition sitePlatform (s : Site) : Platform := {|
  World := Z;
  sleep := fun ms w => (w + ms)%Z;
  isoNow := fun _ => "2024-01-01T00:00:00.000Z";
  dateNow := fun w => w;
  getPage := fun u w => ((w + 1)%Z, fromOption (assoc u (site_pages s)));
  getSitemap := fun _ w => ((w + 1)%Z, fromOption (site_sitemap s));
  getRobots := fun _ w => ((w + 1)%Z, fromOption (site_robots s));
  headRequest := fun u _ w =>
    ((w + 1)%Z,
     match assoc u (site_heads s) with
     | Some o => o
     | None => Thrown axiosNetworkError
     end)
|}.

Definition defaultOptions (seed : string) : CrawlOptions :=
  mkCrawlOptions seed None None None None.

(** A home page that links to itself and to a page that links back. *)
Definition selfLinkSite : Site :=
  mkSite [ ("https://example.com/", mkDocument "Home" ["/"; "/about"] false);
           ("https://example.com/about", mkDocument "About" ["/"; "about"] false) ]
         None None [].

(** A home page with one link that cannot be fetched. *)
Definition deadLinkSite : Site :=
  mkSite [ ("https://example.com/", mkDocument "Home" ["/missing"] false) ]
         None None [].

(** A sitemap of two same-domain URLs, the second of which cannot be
    fetched. *)
Definition sitemapSite : Site :=
  mkSite [ ("https://example.com/", mkDocument "Home" [] false) ]
         (Some (Some [Some "https://example.com/"; Some "https://example.com/gone"]))
         None [].

(** The pages [A -> B], [B], [C] of the orphan example. *)
Definition orphanExample : list PageMetadata :=
  [ mkPageMetadata "https://a.test" "A" (mkLinks ["https://a.test/b"] []) false;
    mkPageMetadata "https://a.test/b" "B" (mkLinks [] []) false;
    mkPageMetadata "https://a.test/c" "C" (mkLinks [] []) false ].

(** Three probes: one answered 200, one answered 404, one timing out. *)
Definition probeSite : Site :=
  mkSite [] None None
    [ ("https://example.com/ok",
       Returned (mkHeadResponse 200 "OK" (Some None) None
                                "https://example.com/ok"));
      ("https://example.com/nope",
       Returned (mkHeadResponse 404 "Not Found" (Some None) None
                                "https://example.com/nope"));
      ("https://example.com/slow", Thrown axiosTimeout) ].

Definition probeOptions : CheckLinksOptions :=
  mkCheckLinksOptions
    (Some ["https://example.com/ok"; "https://example.com/nope";
           "https://example.com/slow"; "https://example.com/ok"])
    None (Some false) None None None.

Definition robotsAllowInsideDisallow : string :=
  "User-agent: *" ++ LF ++ "Disallow: /admin" ++ LF ++ "Allow: /admin/public".

Definition robotsTwoAgents : string :=
  "User-agent: Googlebot" ++ LF ++ "Disallow: /a" ++ LF
  ++ "User-agent: Bingbot" ++ LF ++ "Disallow: /b".

Definition robotsGooglebotOnly : string :=
  "User-agent: Googlebot" ++ LF ++ "Disallow: /a".

Definition robotsSpecExample : string :=
  "User-agent: *" ++ LF ++ "Disallow: /admin" ++ LF ++ "Allow: /public".

(* ================================================================== *)
(** ** File-name slugs: [getPageSlug] of [src/utils.ts] *)

(** The regular-expression replacements of [getPageSlug], each as the
    string function it computes. *)
Module Slug.

(** [s.replace(/^\//, '')] *)
Definition stripLeadingSlash (s : string) : string :=
  match s with
  | String c s' => if Ascii.eqb c "/" then s' else s
  | EmptyString => s
  end.

(** [s.replace(/\/$/, '')]: only a slash that ends the string. *)
Fixpoint stripTrailingSlash (s : string) : string :=
  match s with
  | EmptyString => EmptyString
  | String c s' =>
      match s' with
      | EmptyString => if Ascii.eqb c "/" then EmptyString else s
      | String _ _ => String c (stripTrailingSlash s')
      end
  end.

(** [s.replace(/\//g, '-')] *)
Fixpoint slashesToHyphens (s : string) : string :=
  match s with
  | EmptyString => EmptyString
  | String c s' =>
      String (if Ascii.eqb c "/" then "-"%char else c) (slashesToHyphens s')
  end.

Fixpoint noLineTerminator (s : string) : bool :=
  match s with
  | EmptyString => true
  | String c s' => negb (JsRegex.isLineTerminator c) && noLineTerminator s'
  end.

(** [s.replace(/\?.*$/, '')]: from the first [?] that no line
    terminator follows, to the end. *)
Fixpoint stripQuery (s : string) : string :=
  match s with
  | EmptyString => EmptyString
  | String c s' =>
      if Ascii.eqb c "?" && noLineTerminator s' then EmptyString
      else String c (stripQuery s')
  end.

(** [\w] or [-] *)
Definition isSlugChar (c : ascii) : bool :=
  let n := nat_of_ascii c in
  ((48 <=? n)%nat && (n <=? 57)%nat)
  || ((65 <=? n)%nat && (n <=? 90)%nat)
  || ((97 <=? n)%nat && (n <=? 122)%nat)
  || Ascii.eqb c "_" || Ascii.eqb c "-".

(** [s.replace(/[^\w-]/g, '')] *)
Fixpoint keepSlugChars (s : string) : string :=
  match s with
  | EmptyString => EmptyString
  | String c s' =>
      if isSlugChar c then String c (keepSlugChars s') else keepSlugChars s'
  end.

(** [s.replace(/--+/g, '-')]: a hyphen followed by a hyphen is dropped,
    so every run of hyphens leaves its last one. *)
Fixpoint collapseHyphens (s : string) : string :=
  match s with
  | EmptyString => EmptyString
  | String c s' =>
      if Ascii.eqb c "-" && Str.startsWith s' "-" then collapseHyphens s'
      else String c (collapseHyphens s')
  end.

Fixpoint allChars (p : ascii -> bool) (s : string) : bool :=
  match s with
  | EmptyString => true
  | String c s' => p c && allChars p s'
  end.

End Slug.

Section MoreUtils.
Context {U : URLImpl}.

Definition getPageSlug (pageUrl : string) : string :=
  match newURL pageUrl with
  | Some urlObj =>
      let slug :=
        Slug.stripQuery
          (Slug.slashesToHyphens
             (Slug.stripTrailingSlash
                (Slug.stripLeadingSlash (pathname urlObj)))) in
      let slug := if Str.truthy slug then slug else "home" in
      Slug.collapseHyphens (Slug.keepSlugChars slug)
  | None => "page"
  end.

Definition extractDomainFromUrl (pageUrl : string) : string :=
  match newURL pageUrl with
  | Some urlObj => hostname urlObj
  | None => ""
  end.

End MoreUtils.

(** A home page linking to [/about] and [/admin], with a robots
    document that closes [/admin] to every agent. *)
Definition robotsSite : Site :=
  mkSite [ ("https://example.com/",
            mkDocument "Home" ["/admin"; "/about"; "https://other.test/"] false);
           ("https://example.com/about", mkDocument "About" ["/"] false);
           ("https://example.com/admin", mkDocument "Admin" [] false) ]
         None
         (Some (TextData ("User-agent: *" ++ LF ++ "Disallow: /admin")))
         [].

(** The same site with a robots pattern that [RegExp] rejects. *)
Definition badRobotsSite : Site :=
  mkSite (site_pages robotsSite) None
         (Some (TextData ("User-agent: *" ++ LF ++ "Disallow: /admin(old")))
         [].

(** A crawl state of [selfLinkSite] in which the home page is already
    stored, with a title of its own. *)
Definition keptHomeState : @CrawlState (sitePlatform selfLinkSite) :=
  @mkCrawlState (sitePlatform selfLinkSite)
    [("https://example.com/",
      mkPageMetadata "https://example.com/" "Kept" (mkLinks [] []) false)]
    [] 0%Z [].


(** A site whose sitemap lists a page that its robots document closes
    to every agent. *)
Definition sitemapRobotsSite : Site :=
  mkSite [ ("https://example.com/", mkDocument "Home" ["/admin"] false);
           ("https://example.com/admin", mkDocument "Admin" [] false) ]
         (Some (Some [Some "https://example.com/";
                      Some "https://example.com/admin"]))
         (Some (TextData ("User-agent: *" ++ LF ++ "Disallow: /admin")))
         [].

(** The platform [P] with another answer to the robots request. *)
Definition withRobotsSource (P : Platform)
           (robots : string -> @World P -> @World P * Outcome ResponseData)
  : Platform := {|
  World := @World P;
  sleep := @sleep P;
  isoNow := @isoNow P;
  dateNow := @dateNow P;
  getPage := @getPage P;
  getSitemap := @getSitemap P;
  getRobots := robots;
  headRequest := @headRequest P
|}.

(** What a crawl state holds, as values that do not depend on the
    platform beyond its worlds. *)
Definition stateView {P : Platform} (st : @CrawlState P)
  : JsMap PageMetadata * list CrawlError * @World P * list (string * Z) :=
  (pages st, errors st, world st, discovered st).

Definition runView {P : Platform} (r : option (Outcome (@CrawlState P * bool)))
  : option (Outcome (JsMap PageMetadata * list CrawlError * @World P
                     * list (string * Z) * bool)) :=
  match r with
  | Some (Returned (st, sitemapFound)) =>
      Some (Returned (pages st, errors st, world st, discovered st,
                      sitemapFound))
  | Some (Thrown e) => Some (Thrown e)
  | None => None
  end.

(** The orphan example as a crawl leaves it: a site whose sitemap lists
    its three pages, the home page [A] under the URL of the root path. *)
Definition orphanSite : Site :=
  mkSite [ ("https://a.test/", mkDocument "A" ["/b"] false);
           ("https://a.test/b", mkDocument "B" [] false);
           ("https://a.test/c", mkDocument "C" [] false) ]
         (Some (Some [Some "https://a.test/"; Some "https://a.test/b";
                      Some "https://a.test/c"]))
         None [].

(** The pages [A -> B], [B], [C] of a site served under [www.]. *)
Definition orphanExampleWww : list PageMetadata :=
  [ mkPageMetadata "https://www.a.test" "A"
                   (mkLinks ["https://www.a.test/b"] []) false;
    mkPageMetadata "https://www.a.test/b" "B" (mkLinks [] []) false;
    mkPageMetadata "https://www.a.test/c" "C" (mkLinks [] []) false ].

(* ================================================================== *)
(** ** Vocabulary of the statements *)


Definition maxPagesOf (options : CrawlOptions) : Q :=
  orDefault (opt_maxPages options) 100%Q.

Definition rateLimitOf (options : CrawlOptions) : Z :=
  orDefault (opt_rateLimit options) RATE_LIMIT_MS.

(** Every page of the map is stored under its own URL. *)
Definition keyedByUrl (m : JsMap PageMetadata) : Prop :=
  Forall (fun kv => url (snd kv) = fst kv) m.




(** The candidate links of a link check, before deduplication. *)
Definition candidateLinks (options : CheckLinksOptions)
           (crawlData : option (list PageMetadata)) : list string :=
  ((if orDefault (clo_useCrawlData options) true
    then match crawlData with
         | Some crawlPages =>
             flat_map (pageLinks (orDefault (clo_checkExternal options) false))
                      crawlPages
         | None => []
         end
    else [])
   ++ orDefault (clo_urls options) [])%list.

(** The domain a link check works for. *)
Definition domainOf {U : URLImpl} (options : CheckLinksOptions) : string :=
  match orDefault (clo_urls options) [] with
  | first :: _ => extractDomain first
  | [] => orDefault (clo_domain options) ""
  end.

(** A chain length that only says whether a redirect was seen. *)
Definition chainBinary (l : LinkStatus) : Prop :=
  ls_redirectChainLength l = 0%Z \/ ls_redirectChainLength l = 1%Z.

(** The condition under which [checkLink] reports a timeout: the code
    axios gives its timeout error, or an [Error] whose message says
    so. *)
Definition timedOut (e : JsError) : Prop :=
  err_code e = Some "ECONNABORTED"
  \/ (err_instanceofError e = true
      /\ Str.includes (err_message e) "timeout" = true).

(** A line that opens a block for [userAgent]: a [User-agent] line
    naming it or [*]. *)
Definition entersBlock (userAgent line : string) : bool :=
  Str.startsWith (Str.trim line) "User-agent:"
  && (String.eqb (Str.trim (Str.replace (Str.trim line) "User-agent:" ""))
                 userAgent
      || String.eqb (Str.trim (Str.replace (Str.trim line) "User-agent:" ""))
                    "*").

(** The options with [respectRobotsTxt] set. *)
Definition withRespectRobots (options : CrawlOptions) (b : bool)
  : CrawlOptions :=
  mkCrawlOptions (opt_url options) (opt_maxDepth options)
                 (opt_maxPages options) (Some b) (opt_rateLimit options).

(** The [canCrawlFn] a crawl hands to [recursiveCrawl]: the policy of
    the fetched robots document, or the constant [true] when robots are
    not respected; [None] when there is no policy (the seed does not
    parse, or [parseRobotsText] throws). *)
Definition crawlPolicy {U : URLImpl} {RE : RegExpImpl} {P : Platform}
           (options : CrawlOptions) (w0 : World) : option (string -> bool) :=
  match newURL (opt_url options) with
  | None => None
  | Some u =>
      let '(w1, _) := fetchSitemap (origin u ++ "/sitemap.xml") w0 in
      let '(_, robotsTxt) := fetchRobotsTxt (opt_url options) w1 in
      if orDefault (opt_respectRobotsTxt options) true
      then robotsCanCrawl robotsTxt
      else Some (fun _ : string => true)
  end.

(** What holds of a page stored under [k] by a recursive crawl entered
    at [root]: its path is permitted, it is stored under its own URL,
    it is on the host of [root], and so are its internal links. *)
Definition crawledEntry {U : URLImpl} (canCrawlFn : string -> bool)
           (root k : string) (md : PageMetadata) : Prop :=
  (exists urlObj, newURL k = Some urlObj /\ canCrawlFn (pathname urlObj) = true)
  /\ url md = k
  /\ isSameDomain k root = true
  /\ (forall l, In l (internal (links md)) -> isSameDomain l k = true).

(** What holds of every entry of the broken list: it is not working,
    its status is outside [200, 400), and it is not counted both as a
    404 and as a timeout. *)
Definition brokenEntry (l : LinkStatus) : Prop :=
  ls_isWorking l = false
  /\ ~ (200 <= ls_status l < 400)%Z
  /\ is404 l && isTimeout l = false.

(** The options of a link check, with their defaults. *)
Definition externalTimeoutOf (options : CheckLinksOptions) : Z :=
  orDefault (clo_externalTimeout options) DEFAULT_TIMEOUT.

Definition linkRateLimitOf (options : CheckLinksOptions) : Z :=
  orDefault (clo_rateLimit options) LINK_RATE_LIMIT_MS.

(** The timeout the checking loop gives the probe of [u]. *)
Definition probeTimeout {U : URLImpl} (domain : string) (externalTimeout : Z)
           (u : string) : Z :=
  if isSameDomain u domain then DEFAULT_TIMEOUT else externalTimeout.

(** The probes of the checking loop in the order they are made: each
    link with the world its probe starts in, which is the world the
    previous probe left, after the pause of [rateLimit]. *)
Fixpoint probeLog {U : URLImpl} {P : Platform} (domain : string)
         (externalTimeout rateLimit : Z) (urls : list string) (w : World)
  : list (string * World) :=
  match urls with
  | [] => []
  | u :: rest =>
      let w1 := sleep rateLimit w in
      (u, w1)
        :: probeLog domain externalTimeout rateLimit rest
             (fst (checkLink u (probeTimeout domain externalTimeout u) w1))
  end.

(** The record the loop holds for a probe: the one [checkLink] resolves
    to, or the one of the [catch] block. *)
Definition probeRecord {U : URLImpl} {P : Platform} (domain : string)
           (externalTimeout : Z) (probe : string * World) : LinkStatus :=
  match snd (checkLink (fst probe)
                       (probeTimeout domain externalTimeout (fst probe))
                       (snd probe)) with
  | Returned status => status
  | Thrown error =>
      mkLinkStatus (fst probe) 0 "Error" false None 0 0
                   (Some (errorMsgOf error))
  end.

(** The probes of a link check, and their records. *)
Definition probesOf {U : URLImpl} {P : Platform} (options : CheckLinksOptions)
           (readCrawlData : string -> option (list PageMetadata)) (w0 : World)
  : list (string * World) :=
  probeLog (domainOf options) (externalTimeoutOf options)
           (linkRateLimitOf options)
           (Set_addAll [] (candidateLinks options
                                          (readCrawlData (domainOf options))))
           w0.

Definition recordsOf {U : URLImpl} {P : Platform} (options : CheckLinksOptions)
           (readCrawlData : string -> option (list PageMetadata)) (w0 : World)
  : list LinkStatus :=
  map (probeRecord (domainOf options) (externalTimeoutOf options))
      (probesOf options readCrawlData w0).

Definition notWorking (l : LinkStatus) : bool := negb (ls_isWorking l).

(* ================================================================== *)
(** * Properties *)

(** ** Collections *)

Lemma Map_has_In (V : Type) (m : JsMap V) (k : string) :
  Map_has m k = true <-> In k (Map_keys m).
Proof.
  induction m as [|[k' v'] m IH]; simpl.
  - split; [discriminate | tauto].
  - rewrite orb_true_iff, IH, String.eqb_eq. tauto.
Qed.

Lemma Map_has_false (V : Type) (m : JsMap V) (k : string) :
  Map_has m k = false <-> ~ In k (Map_keys m).
Proof.
  rewrite <- Map_has_In. destruct (Map_has m k); split; intros;
    congruence.
Qed.

Lemma Map_set_fresh (V : Type) (m : JsMap V) (k : string) (v : V) :
  Map_has m k = false -> Map_set m k v = (m ++ [(k, v)])%list.
Proof.
  induction m as [|[k' v'] m IH]; simpl; intros H; [reflexivity|].
  apply orb_false_iff in H. destruct H as [Hk Hm].
  rewrite Hk, IH by assumption. reflexivity.
Qed.

Lemma Map_set_present (V : Type) (m : JsMap V) (k : string) (v : V) :
  Map_has m k = true -> Map_keys (Map_set m k v) = Map_keys m.
Proof.
  induction m as [|[k' v'] m IH]; simpl; intros H; [discriminate|].
  destruct (String.eqb k' k) eqn:E; simpl.
  - apply String.eqb_eq in E. now subst.
  - simpl in H. now rewrite IH.
Qed.

Lemma Map_keys_set (V : Type) (m : JsMap V) (k : string) (v : V) :
  Map_keys (Map_set m k v)
  = if Map_has m k then Map_keys m else (Map_keys m ++ [k])%list.
Proof.
  destruct (Map_has m k) eqn:E.
  - now apply Map_set_present.
  - rewrite Map_set_fresh by assumption. unfold Map_keys.
    now rewrite map_app.
Qed.

Lemma NoDup_snoc (A : Type) (l : list A) (a : A) :
  NoDup l -> ~ In a l -> NoDup (l ++ [a]).
Proof.
  intros Hl Ha. induction Hl as [|x l Hx Hl IH]; simpl.
  - constructor; [tauto | constructor].
  - constructor.
    + rewrite in_app_iff. simpl. intros [H|[H|[]]]; [tauto|].
      subst. apply Ha. now left.
    + apply IH. intros H. apply Ha. now right.
Qed.

Lemma Map_set_NoDup (V : Type) (m : JsMap V) (k : string) (v : V) :
  NoDup (Map_keys m) -> NoDup (Map_keys (Map_set m k v)).
Proof.
  intros H. rewrite Map_keys_set. destruct (Map_has m k) eqn:E; [assumption|].
  apply NoDup_snoc; [assumption | now apply Map_has_false].
Qed.

Lemma Map_size_set (V : Type) (m : JsMap V) (k : string) (v : V) :
  Map_size (Map_set m k v)
  = if Map_has m k then Map_size m else S (Map_size m).
Proof.
  unfold Map_size.
  rewrite <- (length_map fst (Map_set m k v)), <- (length_map fst m).
  fold (Map_keys (Map_set m k v)). fold (Map_keys m).
  rewrite Map_keys_set. destruct (Map_has m k); [reflexivity|].
  rewrite length_app. simpl. lia.
Qed.

Lemma Set_has_In (s : JsSet) (x : string) :
  Set_has s x = true <-> In x s.
Proof.
  unfold Set_has. rewrite existsb_exists. split.
  - intros [y [Hy E]]. apply String.eqb_eq in E. now subst.
  - intros H. exists x. split; [assumption | apply String.eqb_refl].
Qed.

Lemma Set_add_In (s : JsSet) (x y : string) :
  In y (Set_add s x) <-> In y s \/ y = x.
Proof.
  unfold Set_add. destruct (Set_has s x) eqn:E.
  - apply Set_has_In in E. split; [tauto|]. intros [H|H]; subst; assumption.
  - rewrite in_app_iff. simpl. intuition congruence.
Qed.

Lemma Set_add_NoDup (s : JsSet) (x : string) :
  NoDup s -> NoDup (Set_add s x).
Proof.
  intros H. unfold Set_add. destruct (Set_has s x) eqn:E; [assumption|].
  apply NoDup_snoc; [assumption|]. rewrite <- Set_has_In. congruence.
Qed.

Lemma Set_addAll_In (xs : list string) (s : JsSet) (y : string) :
  In y (Set_addAll s xs) <-> In y s \/ In y xs.
Proof.
  unfold Set_addAll. revert s.
  induction xs as [|x xs IH]; simpl; intros s; [tauto|].
  rewrite IH, Set_add_In. intuition congruence.
Qed.

Lemma Set_addAll_NoDup (xs : list string) (s : JsSet) :
  NoDup s -> NoDup (Set_addAll s xs).
Proof.
  unfold Set_addAll. revert s.
  induction xs as [|x xs IH]; simpl; intros s H; [assumption|].
  apply IH. now apply Set_add_NoDup.
Qed.

(** Two duplicate-free lists with the same elements have the same
    length. *)
Lemma NoDup_same_length (A : Type) (l1 l2 : list A) :
  NoDup l1 -> NoDup l2 -> (forall x, In x l1 <-> In x l2) ->
  List.length l1 = List.length l2.
Proof.
  intros H1 H2 H. apply Nat.le_antisymm; apply NoDup_incl_length;
    try assumption; intros x Hx; now apply H.
Qed.


Lemma Num_ge_false (n : Z) (x : Q) :
  Num.ge n x = false <-> (inject_Z n < x)%Q.
Proof.
  unfold Num.ge. rewrite <- not_true_iff_false, Qle_bool_iff.
  split; [apply Qnot_le_lt | apply Qlt_not_le].
Qed.

Lemma Num_lt_true (n : Z) (x : Q) :
  Num.lt n x = true <-> (inject_Z n < x)%Q.
Proof.
  unfold Num.lt. rewrite negb_true_iff. apply Num_ge_false.
Qed.




Lemma firstn_incl (A : Type) (k : nat) (l : list A) (x : A) :
  In x (firstn k l) -> In x l.
Proof.
  intros H. rewrite <- (firstn_skipn k l). apply in_or_app. now left.
Qed.

Lemma slice0_incl (A : Type) (arr : list A) (n : Q) (x : A) :
  In x (slice0 arr n) -> In x arr.
Proof.
  unfold slice0. destruct (Num.trunc n <? 0)%Z; apply firstn_incl.
Qed.

(** ** Robots policy *)

Section RobotsFacts.
Context {RE : RegExpImpl}.

Lemma firstMatch_None (pats : list RegExp) (path : string) (ret : bool) :
  Robots.firstMatch pats path ret = None
  <-> forall re, In re pats -> test re path = false.
Proof.
  induction pats as [|p ps IH]; simpl.
  - split; [intros _ re [] | reflexivity].
  - destruct (test p path) eqn:E.
    + split; [discriminate|]. intros H.
      specialize (H p (or_introl eq_refl)). congruence.
    + rewrite IH. split.
      * intros H re [<-|Hre]; [assumption | now apply H].
      * intros H re Hre. apply H. now right.
Qed.

Lemma firstMatch_Some (pats : list RegExp) (path : string) (ret r : bool) :
  Robots.firstMatch pats path ret = Some r ->
  r = ret /\ exists re, In re pats /\ test re path = true.
Proof.
  induction pats as [|p ps IH]; simpl; [discriminate|].
  destruct (test p path) eqn:E.
  - intros [= <-]. split; [reflexivity|]. exists p. split; [now left | assumption].
  - intros H. destruct (IH H) as [-> [re [Hre Ht]]].
    split; [reflexivity|]. exists re. split; [now right | assumption].
Qed.

(** What [canCrawl] computes: a path is refused exactly when some
    disallow pattern matches it; the allow patterns have no part in
    the answer. *)
Lemma canCrawl_false_iff (p : Robots.Policy) (path : string) :
  Robots.canCrawl p path = false
  <-> exists re, In re (Robots.pol_disallow p) /\ test re path = true.
Proof.
  unfold Robots.canCrawl.
  destruct (Robots.firstMatch (Robots.pol_disallow p) path false) as [r|] eqn:D.
  - destruct (firstMatch_Some _ _ _ D) as [-> Hex]. tauto.
  - split.
    + destruct (Robots.firstMatch (Robots.pol_allow p) path true) as [r|] eqn:A;
        [|discriminate].
      destruct (firstMatch_Some _ _ _ A) as [-> _]. discriminate.
    + intros [re [Hre Ht]].
      rewrite (proj1 (firstMatch_None _ _ _) D re Hre) in Ht. discriminate.
Qed.

(** A [User-agent] line empties both rule sets when it names the
    requested identity or [*]; any other [User-agent] line leaves the
    whole state, [currentAgent] included, as it was. *)
Lemma step_user_agent (userAgent : string) (st : Robots.ParseState)
      (line : string) :
  Str.startsWith (Str.trim line) "User-agent:" = true ->
  Robots.step userAgent st line
  = if String.eqb (Str.trim (Str.replace (Str.trim line) "User-agent:" ""))
                  userAgent
       || String.eqb (Str.trim (Str.replace (Str.trim line) "User-agent:" ""))
                     "*"
    then Some (Robots.mkParseState
                 (Str.trim (Str.replace (Str.trim line) "User-agent:" ""))
                 [] [] (Robots.canSitemap st))
    else Some st.
Proof.
  intros H. unfold Robots.step. rewrite H. reflexivity.
Qed.
End RobotsFacts.

(** C3 (the code departs from the claim).  The claim: a path matching a
    disallow pattern and an allow pattern is permitted.  For the robots
    document [User-agent: * / Disallow: /admin / Allow: /admin/public]
    the path [/admin/public] matches both, and [canCrawl] answers
    [false]: the disallow loop returns before the allow patterns are
    read.  The example of the specification, where no path matches
    both, comes out as stated. *)
Theorem canCrawl_allow_never_overrides :
  canCrawlText robotsAllowInsideDisallow "*" "/admin/public" = Some false
  /\ canCrawlText robotsSpecExample "*" "/public" = Some true
  /\ canCrawlText robotsSpecExample "*" "/admin" = Some false
  /\ canCrawlText robotsSpecExample "*" "/other" = Some true.
Proof. repeat split; vm_compute; reflexivity. Qed.

(** C4 (the code departs from the claim).  The claim: directives under a
    [User-agent] block that does not match the requested identity never
    contribute rules.  For Googlebot and the document
    [User-agent: Googlebot / Disallow: /a / User-agent: Bingbot /
    Disallow: /b] the rule [/b] of the Bingbot block is in the policy
    and [/b] is refused, although the Googlebot block alone permits it:
    a non-matching [User-agent] line does not clear [currentAgent]. *)
Theorem parseRobotsText_leaks_foreign_block :
  canCrawlText robotsTwoAgents "Googlebot" "/b" = Some false
  /\ canCrawlText robotsGooglebotOnly "Googlebot" "/b" = Some true
  /\ option_map (fun p => List.length (Robots.pol_disallow p))
                (Robots.parseRobotsText (RE := JsRegexImpl)
                                        robotsTwoAgents "Googlebot")
     = Some 2%nat.
Proof. repeat split; vm_compute; reflexivity. Qed.

(** ** URL normalisation *)

Section NormalizeFacts.
Context {U : URLImpl}.

Lemma normalizeUrl_absolute (input : string) (baseUrl : option string) :
  Str.startsWith input "http://" || Str.startsWith input "https://" = true ->
  normalizeUrl input baseUrl = input.
Proof. intros H. unfold normalizeUrl. now rewrite H. Qed.

Lemma normalizeUrl_no_base (input : string) :
  normalizeUrl input None = input.
Proof.
  unfold normalizeUrl.
  now destruct (Str.startsWith input "http://" || Str.startsWith input "https://").
Qed.

Lemma normalizeUrl_bad_base (input b : string) :
  newURL b = None -> normalizeUrl input (Some b) = input.
Proof.
  intros Hb. unfold normalizeUrl.
  destruct (Str.startsWith input "http://" || Str.startsWith input "https://");
    [reflexivity|].
  destruct (negb (Str.truthy b)); [reflexivity|]. now rewrite Hb.
Qed.

(** With a base that parses, the three remaining branches. *)
Lemma normalizeUrl_with_base (input b : string) (base : URL) :
  b <> "" -> newURL b = Some base ->
  Str.startsWith input "http://" = false ->
  Str.startsWith input "https://" = false ->
  normalizeUrl input (Some b)
  = if Str.startsWith input "/"
    then protocol base ++ "//" ++ host base ++ input
    else if Str.startsWith input "#" || Str.startsWith input "?"
         then b ++ input
         else match newURLWithBase input b with
              | Some u => toString u
              | None => input
              end.
Proof.
  intros Hb Hbase H1 H2. unfold normalizeUrl. rewrite H1, H2. simpl.
  destruct b as [|c b']; [congruence|]. simpl. now rewrite Hbase.
Qed.
End NormalizeFacts.

(** C5.  [normalizeUrl] is a total function (it cannot throw) and, for
    every implementation of the [URL] class:
    inputs starting with [http://] or [https://] are returned as they
    are; with a base that parses, an input starting with [/] gives the
    base's protocol, [//], the base's host and the input, an input
    starting with [#] or [?] gives the base followed by the input, and
    any other input gives [new URL(input, base).toString()]; without a
    base, with a base that does not parse, or when the resolution
    fails, the input is returned as it is.  With the WHATWG resolution
    the three examples come out as stated. *)
Theorem normalizeUrl_spec :
  (forall (U : URLImpl) (rest : string) (baseUrl : option string),
      normalizeUrl ("http://" ++ rest) baseUrl = "http://" ++ rest
      /\ normalizeUrl ("https://" ++ rest) baseUrl = "https://" ++ rest)
  /\ (forall (U : URLImpl) (rest b : string) (base : URL),
         b <> "" -> newURL b = Some base ->
         normalizeUrl ("/" ++ rest) (Some b)
         = protocol base ++ "//" ++ host base ++ "/" ++ rest)
  /\ (forall (U : URLImpl) (rest b : string) (base : URL),
         b <> "" -> newURL b = Some base ->
         normalizeUrl ("#" ++ rest) (Some b) = b ++ "#" ++ rest
         /\ normalizeUrl ("?" ++ rest) (Some b) = b ++ "?" ++ rest)
  /\ (forall (U : URLImpl) (input b : string) (base : URL),
         b <> "" -> newURL b = Some base ->
         Str.startsWith input "http://" = false ->
         Str.startsWith input "https://" = false ->
         Str.startsWith input "/" = false ->
         Str.startsWith input "#" = false ->
         Str.startsWith input "?" = false ->
         normalizeUrl input (Some b)
         = match newURLWithBase input b with
           | Some u => toString u
           | None => input
           end)
  /\ (forall (U : URLImpl) (input b : string),
         normalizeUrl input None = input
         /\ (newURL b = None -> normalizeUrl input (Some b) = input))
  /\ normalizeUrl (U := WhatwgURL) "/about" (Some "https://example.com/page/")
     = "https://example.com/about"
  /\ normalizeUrl (U := WhatwgURL) "contact" (Some "https://example.com/page/")
     = "https://example.com/page/contact"
  /\ normalizeUrl (U := WhatwgURL) "../about"
                  (Some "https://example.com/page/subpage/")
     = "https://example.com/page/about".
Proof.
  split; [|split; [|split; [|split; [|split; [|split; [|split]]]]]];
    try (vm_compute; reflexivity).
  - intros U rest baseUrl.
    split; apply normalizeUrl_absolute; reflexivity.
  - intros U rest b base Hb Hbase.
    now rewrite (normalizeUrl_with_base _ Hb Hbase).
  - intros U rest b base Hb Hbase.
    split; now rewrite (normalizeUrl_with_base _ Hb Hbase).
  - intros U input b base Hb Hbase H1 H2 H3 H4 H5.
    rewrite (normalizeUrl_with_base _ Hb Hbase H1 H2). now rewrite H3, H4, H5.
  - intros U input b. split;
      [apply normalizeUrl_no_base | apply normalizeUrl_bad_base].
Qed.

Lemma Map_set_keyedByUrl (m : JsMap PageMetadata) (k : string)
      (md : PageMetadata) :
  keyedByUrl m -> url md = k -> keyedByUrl (Map_set m k md).
Proof.
  intros Hm Hk. induction Hm as [|[k' v'] m Hkv Hm IH]; simpl.
  - constructor; [assumption | constructor].
  - destruct (String.eqb k' k); constructor; assumption.
Qed.

(** The first and the second example satisfy the hypotheses of the
    branches they take. *)
Lemma normalizeUrl_spec_witness :
  normalizeUrl (U := WhatwgURL) "/about" (Some "https://example.com/page/")
  = "https:" ++ "//" ++ "example.com" ++ "/about"
  /\ normalizeUrl (U := WhatwgURL) "contact" (Some "https://example.com/page/")
     = "https://example.com/page/contact".
Proof.
  destruct normalizeUrl_spec as (_ & Hslash & _ & Hrel & _).
  split.
  - apply (Hslash WhatwgURL "about" "https://example.com/page/"
                  (Whatwg.mkUrl "https" "example.com" ["page"; ""] None None)).
    + discriminate.
    + vm_compute. reflexivity.
  - apply (Hrel WhatwgURL "contact" "https://example.com/page/"
                (Whatwg.mkUrl "https" "example.com" ["page"; ""] None None));
      try reflexivity.
    discriminate.
Defined.

(** ** The crawler *)

Section CrawlFacts.
Context {U : URLImpl} {RE : RegExpImpl} {P : Platform}.

(** [crawlPage] swallows every failure: its promise always resolves,
    with [null] or with a page stored under the requested URL. *)
Lemma crawlPage_never_rejects (pageUrl : string) (rateLimit : Z) (w : World) :
  exists w' r,
    crawlPage pageUrl rateLimit w = (w', Returned r)
    /\ forall md, r = Some md -> url md = pageUrl.
Proof.
  unfold crawlPage.
  destruct (getPage pageUrl (if (rateLimit >? 0)%Z then sleep rateLimit w else w))
    as [w2 [doc|e]].
  - destruct (fold_left (addLink pageUrl) (doc_hrefs doc) ([], []))
      as [i e]. eexists. eexists. split; [reflexivity|].
    intros md [= <-]. reflexivity.
  - eexists. eexists. split; [reflexivity|]. discriminate.
Qed.

Lemma recursiveCrawl_no_fuel (canCrawlFn : string -> bool)
      (maxDepth maxPages : Q) (rateLimit : Z) (pageUrl : string) (depth : Z)
      (st : CrawlState) :
  recursiveCrawl 0 canCrawlFn maxDepth maxPages rateLimit pageUrl depth st
  = None.
Proof. reflexivity. Qed.

Section Recursive.
Variable canCrawlFn : string -> bool.
Variables maxDepth maxPages : Q.
Variable rateLimit : Z.
Variable e0 : list CrawlError.



End Recursive.

(** The sitemap loop: at most one new key per listed URL, all of them
    listed URLs; nothing is logged as discovered and [errors] is not
    touched. *)
Lemma crawlSitemapPages_spec (rateLimit : Z) (urls : list string) :
  forall st,
    NoDup (Map_keys (pages st)) -> keyedByUrl (pages st) ->
    NoDup (Map_keys (pages (crawlSitemapPages rateLimit urls st)))
    /\ keyedByUrl (pages (crawlSitemapPages rateLimit urls st))
    /\ (Map_size (pages (crawlSitemapPages rateLimit urls st))
        <= Map_size (pages st) + List.length urls)%nat
    /\ (forall k, In k (Map_keys (pages (crawlSitemapPages rateLimit urls st))) ->
                  In k (Map_keys (pages st)) \/ In k urls)
    /\ discovered (crawlSitemapPages rateLimit urls st) = discovered st
    /\ errors (crawlSitemapPages rateLimit urls st) = errors st.
Proof.
  induction urls as [|pageUrl rest IH]; intros st Hnd Hky; simpl.
  - repeat split; auto; lia.
  - destruct (crawlPage_never_rejects pageUrl rateLimit (world st))
      as (w & r & -> & Hr).
    destruct r as [md|].
    + match goal with
      | |- context [crawlSitemapPages rateLimit rest ?s] =>
          destruct (IH s) as (H1 & H2 & H3 & H4 & H5 & H6)
      end.
      * simpl. now apply Map_set_NoDup.
      * simpl. apply Map_set_keyedByUrl; [assumption | now apply Hr].
      * simpl in *.
        refine (conj H1 (conj H2 (conj _ (conj _ (conj H5 H6))))).
        -- rewrite Map_size_set in H3.
           destruct (Map_has (pages st) pageUrl); lia.
        -- intros k Hk. destruct (H4 k Hk) as [Hin|Hin]; [|tauto].
           rewrite Map_keys_set in Hin.
           destruct (Map_has (pages st) pageUrl); [tauto|].
           apply in_app_iff in Hin. simpl in Hin. intuition.
    + destruct (IH (withWorld st w)) as (H1 & H2 & H3 & H4 & H5 & H6);
        [assumption | assumption|].
      simpl in *.
      refine (conj H1 (conj H2 (conj _ (conj _ (conj H5 H6))))); [lia|].
      intros k Hk. destruct (H4 k Hk); tauto.
Qed.


Lemma crawlLinks_errors (rec : string -> CrawlState -> option CrawlState)
      (maxPages : Q) :
  (forall link s s', rec link s = Some s' -> errors s' = errors s) ->
  forall ls s s',
    crawlLinks rec maxPages ls s = Some s' -> errors s' = errors s.
Proof.
  intros Hrec. induction ls as [|l ls IHl]; intros s s'; simpl.
  - now intros [= <-].
  - destruct (negb (Map_has (pages s) l)
              && Num.lt (Z.of_nat (Map_size (pages s))) maxPages).
    + destruct (rec l s) as [s1|] eqn:E; [|discriminate].
      intros H. rewrite (IHl _ _ H). now apply Hrec in E.
    + apply IHl.
Qed.

(** [recursiveCrawl] never appends to [errors]: the only [push] is in
    a [catch] that nothing reaches. *)
Lemma recursiveCrawl_errors (canCrawlFn : string -> bool)
      (maxDepth maxPages : Q) (rateLimit : Z) (fuel : nat) :
  forall pageUrl depth st st',
    recursiveCrawl fuel canCrawlFn maxDepth maxPages rateLimit
                   pageUrl depth st = Some st' ->
    errors st' = errors st.
Proof.
  induction fuel as [|fuel IH]; intros pageUrl depth st st'; simpl;
    [discriminate|].
  destruct (Num.gt depth maxDepth
            || Num.ge (Z.of_nat (Map_size (pages st))) maxPages);
    [now intros [= <-]|].
  destruct (Map_has (pages st) pageUrl); [now intros [= <-]|].
  destruct (newURL pageUrl) as [urlObj|]; [|now intros [= <-]].
  destruct (negb (canCrawlFn (pathname urlObj))); [now intros [= <-]|].
  destruct (crawlPage_never_rejects pageUrl 0 (sleep rateLimit (world st)))
    as (w & r & -> & _).
  destruct r as [md|]; [|now intros [= <-]].
  intros H. apply crawlLinks_errors in H; [exact H|].
  intros link s s' Hs. now apply IH in Hs.
Qed.

(** No crawl that returns has recorded an error. *)
Lemma crawlWebsiteRun_errors_empty (fuel : nat) (options : CrawlOptions)
      (w0 : World) (st : CrawlState) (sitemapFound : bool) :
  crawlWebsiteRun fuel options w0 = Some (Returned (st, sitemapFound)) ->
  errors st = [].
Proof.
  unfold crawlWebsiteRun.
  destruct (newURL (opt_url options)) as [u|]; [|discriminate].
  destruct (fetchSitemap (origin u ++ "/sitemap.xml") w0) as [w1 sitemapPages].
  destruct (0 <? List.length sitemapPages)%nat.
  - intros [= <- _].
    match goal with
    | |- context [crawlSitemapPages ?r ?l ?s] =>
        destruct (crawlSitemapPages_spec r l s) as (_ & _ & _ & _ & _ & H);
        [constructor | constructor | exact H]
    end.
  - destruct (fetchRobotsTxt (opt_url options) w1) as [w2 robotsTxt].
    destruct (if orDefault (opt_respectRobotsTxt options) true
              then robotsCanCrawl robotsTxt
              else Some (fun _ : string => true)) as [f|]; [|discriminate].
    match goal with
    | |- context [recursiveCrawl ?a ?b ?c ?d ?e ?f ?g ?h] =>
        destruct (recursiveCrawl a b c d e f g h) as [s|] eqn:E;
        [|discriminate]
    end.
    intros [= <- _]. now apply recursiveCrawl_errors in E.
Qed.
End CrawlFacts.

(** A page that links to itself, run: two pages, each once. *)
Example self_link_crawl :
  option_map (fun r => match r with
                       | Returned (st, _) => Map_keys (pages st)
                       | Thrown _ => []
                       end)
    (crawlWebsiteRun (P := sitePlatform selfLinkSite) 5
                     (defaultOptions "https://example.com/") 0%Z)
  = Some ["https://example.com/"; "https://example.com/about"].
Proof. vm_compute. reflexivity. Qed.




(** C2 (the code departs from the claim).  The claim: every failed page
    fetch appends one Crawl Error.  On a home page whose only link
    cannot be fetched, the recursive crawl fetches both URLs (the clock
    shows two rate-limit pauses and two page requests after the sitemap
    and robots requests), keeps the failed URL out of the page map and
    goes on, but the error list stays empty: [crawlPage] turns the
    failure into [null], so the [catch] of [recursiveCrawl] that would
    record it never runs. *)
Theorem failed_fetch_records_no_error :
  exists st,
    crawlWebsiteRun (P := sitePlatform deadLinkSite) 5
                    (defaultOptions "https://example.com/") 0%Z
    = Some (Returned (st, false))
    /\ Map_keys (pages st) = ["https://example.com/"]
    /\ option_map (fun md => internal (links md))
                  (assoc "https://example.com/" (pages st))
       = Some ["https://example.com/missing"]
    /\ snd (getPage (Platform := sitePlatform deadLinkSite)
                    "https://example.com/missing" 0%Z)
       = Thrown axiosNotFound
    /\ world st = 2004%Z
    /\ errors st = [].
Proof. eexists. vm_compute. repeat split; reflexivity. Qed.




(** ** Orphans *)

(** Membership in the orphan list: the URLs of the crawled pages that
    no page lists as an internal link and that are not, character for
    character, [https://] followed by the domain. *)
Lemma findOrphanedPages_In (domain : string) (crawlPages : list PageMetadata)
      (u : string) :
  In u (findOrphanedPages domain (Some crawlPages))
  <-> In u (map url crawlPages)
      /\ ~ In u (flat_map (fun p => internal (links p)) crawlPages)
      /\ u <> "https://" ++ domain.
Proof.
  unfold findOrphanedPages.
  rewrite filter_In, Set_addAll_In, andb_true_iff, !negb_true_iff.
  rewrite String.eqb_neq.
  assert (Href : Set_has (Set_addAll []
                   (flat_map (fun p => internal (links p)) crawlPages)) u = false
                 <-> ~ In u (flat_map (fun p => internal (links p)) crawlPages)).
  { rewrite <- not_true_iff_false, Set_has_In, Set_addAll_In. simpl. tauto. }
  rewrite Href. simpl. tauto.
Qed.

Lemma findOrphanedPages_NoDup (domain : string)
      (crawlPages : list PageMetadata) :
  NoDup (findOrphanedPages domain (Some crawlPages)).
Proof.
  unfold findOrphanedPages. apply NoDup_filter, Set_addAll_NoDup. constructor.
Qed.

(** C7 (the code departs from the claim).  The claim: the orphan list
    is the crawled URLs minus the referenced ones minus the root, and
    for [A -> B], [B], [C] with root [A] it is [[C]].  The code exempts
    the one string [https://] followed by the domain, which is the host
    name with [www.] removed: a root page stored under any other
    spelling, and that no page links to, is listed.  For the site of
    the example crawled from [https://a.test/], the crawl stores [A]
    under [https://a.test/] and the list is [[A; C]]; so it is for the
    same pages under [https://www.a.test].  The list is [[C]] when [A]
    is stored as [https://a.test]. *)
Theorem orphans_list_the_root :
  (forall (domain : string) (crawlPages : list PageMetadata) (root : string),
      In root (map url crawlPages) ->
      ~ In root (flat_map (fun p => internal (links p)) crawlPages) ->
      root <> "https://" ++ domain ->
      In root (findOrphanedPages domain (Some crawlPages)))
  /\ (exists st,
         crawlWebsiteRun (P := sitePlatform orphanSite) 5
                         (defaultOptions "https://a.test/") 0%Z
         = Some (Returned (st, true))
         /\ map (fun p => (url p, internal (links p))) (Map_values (pages st))
            = [ ("https://a.test/", ["https://a.test/b"]);
                ("https://a.test/b", []);
                ("https://a.test/c", []) ]
         /\ findOrphanedPages (extractDomain "https://a.test/")
                              (Some (Map_values (pages st)))
            = ["https://a.test/"; "https://a.test/c"])
  /\ findOrphanedPages (extractDomain "https://www.a.test")
                       (Some orphanExampleWww)
     = ["https://www.a.test"; "https://www.a.test/c"]
  /\ findOrphanedPages "a.test" (Some orphanExample) = ["https://a.test/c"].
Proof.
  split; [|split; [|split]].
  - intros domain crawlPages root H1 H2 H3.
    apply findOrphanedPages_In. auto.
  - eexists. split; [vm_compute; reflexivity|].
    split; vm_compute; reflexivity.
  - vm_compute. reflexivity.
  - vm_compute. reflexivity.
Qed.

(** The home page stored as [https://a.test/], for the domain
    [a.test]. *)
Lemma orphans_list_the_root_witness :
  In "https://a.test/"
     (findOrphanedPages "a.test"
        (Some [ mkPageMetadata "https://a.test/" "A"
                               (mkLinks ["https://a.test/b"] []) false;
                mkPageMetadata "https://a.test/b" "B" (mkLinks [] []) false ])).
Proof.
  apply (proj1 orphans_list_the_root).
  - simpl. left. reflexivity.
  - simpl. intros [H|[]]. discriminate H.
  - discriminate.
Defined.

(** ** Link health *)

Section LinkFacts.
Context {U : URLImpl} {P : Platform}.

(** [checkLink] always resolves. *)
Lemma checkLink_returns (u : string) (timeout : Z) (w : World) :
  exists w' ls, checkLink u timeout w = (w', Returned ls)
                /\ ls_url ls = u /\ chainBinary ls.
Proof.
  unfold checkLink, chainBinary.
  destruct (headRequest u timeout w) as [w' [response|e]].
  - eexists. eexists. split; [reflexivity|]. simpl. split; [reflexivity|].
    destruct (resp_request response) as [requestUrl|]; [|now left].
    destruct (differsFrom requestUrl u); [now right | now left].
  - match goal with
    | |- context [if ?c then _ else _] => destruct c
    end; eexists; eexists; (split; [reflexivity|]); simpl;
      (split; [reflexivity | now left]).
Qed.

(** One iteration counts its link once, as working or as broken. *)
Lemma checkOne_counts (domain : string) (externalTimeout rateLimit : Z)
      (st : CheckState) (u : string) :
  (cs_working (checkOne domain externalTimeout rateLimit st u)
   + List.length (cs_broken (checkOne domain externalTimeout rateLimit st u))
   = S (cs_working st + List.length (cs_broken st)))%nat
  /\ (Forall chainBinary (cs_broken st) ->
      Forall chainBinary
             (cs_broken (checkOne domain externalTimeout rateLimit st u))).
Proof.
  unfold checkOne.
  destruct (checkLink_returns u
              (if isSameDomain u domain then DEFAULT_TIMEOUT else externalTimeout)
              (sleep rateLimit (cs_world st))) as (w' & ls & -> & _ & Hc).
  destruct (ls_isWorking ls); simpl.
  - split; [lia | auto].
  - rewrite length_app. simpl. split; [lia|].
    intros H. apply Forall_app. split; [assumption|].
    constructor; [assumption | constructor].
Qed.

Lemma checkLoop_counts (domain : string) (externalTimeout rateLimit : Z)
      (ls : list string) :
  forall st,
    (cs_working (fold_left (checkOne domain externalTimeout rateLimit) ls st)
     + List.length
         (cs_broken (fold_left (checkOne domain externalTimeout rateLimit) ls st))
     = cs_working st + List.length (cs_broken st) + List.length ls)%nat
    /\ (Forall chainBinary (cs_broken st) ->
        Forall chainBinary
          (cs_broken (fold_left (checkOne domain externalTimeout rateLimit) ls st))).
Proof.
  induction ls as [|u ls IH]; intros st; simpl.
  - split; [lia | auto].
  - destruct (IH (checkOne domain externalTimeout rateLimit st u)) as [H1 H2].
    destruct (checkOne_counts domain externalTimeout rateLimit st u) as [H3 H4].
    split; [lia | auto].
Qed.

Lemma Set_addAll_app (s : JsSet) (xs ys : list string) :
  Set_addAll s (xs ++ ys) = Set_addAll (Set_addAll s xs) ys.
Proof. unfold Set_addAll. apply fold_left_app. Qed.

(** The candidate set is the deduplicated candidate list. *)
Lemma collectLinks_candidates (options : CheckLinksOptions)
      (crawlData : option (list PageMetadata)) :
  collectLinks (orDefault (clo_urls options) [])
               (orDefault (clo_useCrawlData options) true)
               (orDefault (clo_checkExternal options) false) crawlData
  = Set_addAll [] (candidateLinks options crawlData).
Proof.
  unfold collectLinks, candidateLinks. rewrite Set_addAll_app.
  destruct (orDefault (clo_useCrawlData options) true); [|reflexivity].
  destruct crawlData; reflexivity.
Qed.

Lemma Set_addAll_length (xs : list string) :
  List.length (Set_addAll [] xs) = List.length (nodup string_dec xs).
Proof.
  apply NoDup_same_length.
  - apply Set_addAll_NoDup. constructor.
  - apply NoDup_nodup.
  - intros x. rewrite Set_addAll_In, nodup_In. simpl. tauto.
Qed.

(** The result of a link check that returns. *)
Lemma checkBrokenLinks_returned (options : CheckLinksOptions)
      (readCrawlData : string -> option (list PageMetadata))
      (w0 : World) (r : BrokenLinkResult) :
  checkBrokenLinks options readCrawlData w0 = Returned r ->
  exists st allLinks,
    allLinks = Set_addAll [] (candidateLinks options
                                (readCrawlData (domainOf options)))
    /\ st = fold_left
              (checkOne (domainOf options)
                        (orDefault (clo_externalTimeout options) DEFAULT_TIMEOUT)
                        (orDefault (clo_rateLimit options) LINK_RATE_LIMIT_MS))
              allLinks (mkCheckState [] 0 w0)
    /\ brokenLinks r = cs_broken st
    /\ workingLinks r = cs_working st
    /\ totalChecked r = List.length allLinks
    /\ summary r = summarize (cs_broken st).
Proof.
  unfold checkBrokenLinks. fold (domainOf options).
  destruct (negb (Str.truthy (domainOf options))); [discriminate|].
  rewrite collectLinks_candidates.
  destruct (Set_addAll [] (candidateLinks options
                             (readCrawlData (domainOf options))))
    as [|l ls] eqn:E; [discriminate|].
  intros [= <-]. eexists. eexists. repeat split; reflexivity.
Qed.
End LinkFacts.

Lemma chainBinary_not_counted (broken : list LinkStatus) :
  Forall chainBinary broken ->
  List.length (filter isRedirectChain broken) = 0%nat.
Proof.
  induction 1 as [|l broken Hl _ IH]; simpl; [reflexivity|].
  unfold isRedirectChain at 1.
  destruct Hl as [-> | ->]; simpl; exact IH.
Qed.

Lemma summarize_snoc (broken : list LinkStatus) (l : LinkStatus) :
  total404 (summarize (broken ++ [l]))
  = (total404 (summarize broken) + if is404 l then 1 else 0)%nat
  /\ totalTimeouts (summarize (broken ++ [l]))
     = (totalTimeouts (summarize broken) + if isTimeout l then 1 else 0)%nat.
Proof.
  unfold summarize; simpl. rewrite !filter_app, !length_app. simpl.
  destruct (is404 l), (isTimeout l); simpl; split; lia.
Qed.

Lemma summarize_timeout (broken : list LinkStatus) (l : LinkStatus) :
  isTimeout l = true -> is404 l = false ->
  totalTimeouts (summarize (broken ++ [l])) = S (totalTimeouts (summarize broken))
  /\ total404 (summarize (broken ++ [l])) = total404 (summarize broken).
Proof.
  intros Ht H4. destruct (summarize_snoc broken l) as [H1 H2].
  rewrite H1, H2, Ht, H4. split; lia.
Qed.

(** Every probe resolves to a status record; the record is
    marked working exactly when its status is in [200, 400), and its
    status is the HTTP status of the answer when there is one.  An
    answer with status 404 gives a record that is not working, has
    status 404 and is counted by the 404 filter.  A probe that fails
    gives a record that is not working with status 0; when the failure
    is a timeout, its error text contains [timeout], the timeout filter
    counts it and the 404 filter does not, so that appending it to the
    broken list adds one to [totalTimeouts] and nothing to [total404].
    A record that is not working is appended to the broken list by the
    checking loop. *)
Lemma checkLink_outcome {U : URLImpl} {P : Platform}
      (u : string) (timeout : Z) (w : World) :
  exists w' ls,
    checkLink u timeout w = (w', Returned ls)
    /\ (ls_isWorking ls = true <-> (200 <= ls_status ls < 400)%Z)
    /\ (forall response,
          snd (headRequest u timeout w) = Returned response ->
          ls_status ls = resp_status response)
    /\ (forall response,
          snd (headRequest u timeout w) = Returned response ->
          resp_status response = 404%Z ->
          ls_isWorking ls = false /\ ls_status ls = 404%Z /\ is404 ls = true)
    /\ (forall e,
          snd (headRequest u timeout w) = Thrown e ->
          ls_isWorking ls = false /\ ls_status ls = 0%Z)
    /\ (forall e,
          snd (headRequest u timeout w) = Thrown e -> timedOut e ->
          (exists msg, ls_error ls = Some msg
                       /\ Str.includes msg "timeout" = true)
          /\ isTimeout ls = true /\ is404 ls = false
          /\ forall broken,
               totalTimeouts (summarize (broken ++ [ls]))
               = S (totalTimeouts (summarize broken))
               /\ total404 (summarize (broken ++ [ls]))
                  = total404 (summarize broken))
    /\ (forall domain externalTimeout rateLimit st,
          w = sleep rateLimit (cs_world st) ->
          timeout = (if isSameDomain u domain then DEFAULT_TIMEOUT
                     else externalTimeout) ->
          ls_isWorking ls = false ->
          cs_broken (checkOne domain externalTimeout rateLimit st u)
          = (cs_broken st ++ [ls])%list).
Proof.
  unfold checkLink.
  destruct (headRequest u timeout w) as [w' [response|e]] eqn:Ehead.
  - eexists. eexists. split; [reflexivity|]. simpl.
    split; [rewrite andb_true_iff; lia|].
    split; [now intros r [= <-]|].
    split.
    { intros r [= <-] H404. unfold is404; simpl. rewrite H404. now repeat split. }
    split; [discriminate|]. split; [discriminate|].
    intros domain externalTimeout rateLimit st -> -> Hbroken.
    unfold checkOne, checkLink. rewrite Ehead. simpl. now rewrite Hbroken.
  - assert (Hto : timedOut e ->
                  match err_code e with
                  | Some c => String.eqb c "ECONNABORTED"
                  | None => false
                  end
                  || (err_instanceofError e
                      && Str.includes (err_message e) "timeout") = true).
    { intros [Hc | [Hi Hm]]; [rewrite Hc | rewrite Hi, Hm];
        simpl; auto using orb_true_r. }
    destruct (match err_code e with
              | Some c => String.eqb c "ECONNABORTED"
              | None => false
              end
              || (err_instanceofError e
                  && Str.includes (err_message e) "timeout")) eqn:Ebranch.
    + eexists. eexists. split; [reflexivity|]. simpl.
      split; [split; [discriminate | lia]|].
      split; [discriminate|]. split; [discriminate|].
      split; [now intros|].
      split.
      { intros e' _ _. split; [eexists; split; reflexivity|].
        split; [reflexivity|]. split; [reflexivity|].
        intros broken. now apply summarize_timeout. }
      intros domain externalTimeout rateLimit st -> -> _.
      unfold checkOne, checkLink. rewrite Ehead, Ebranch. reflexivity.
    + eexists. eexists. split; [reflexivity|]. simpl.
      split; [split; [discriminate | lia]|].
      split; [discriminate|]. split; [discriminate|].
      split; [now intros|].
      split.
      { intros e' [= <-] Ht. apply Hto in Ht. discriminate. }
      intros domain externalTimeout rateLimit st -> -> _.
      unfold checkOne, checkLink. rewrite Ehead, Ebranch. reflexivity.
Qed.

Section LinkLoop.
Context {U : URLImpl} {P : Platform}.

(** One iteration, in terms of the record of its probe. *)
Lemma checkOne_log (domain : string) (externalTimeout rateLimit : Z)
      (st : CheckState) (u : string) :
  checkOne domain externalTimeout rateLimit st u
  = let probe := (u, sleep rateLimit (cs_world st)) in
    let status := probeRecord domain externalTimeout probe in
    mkCheckState
      (if ls_isWorking status then cs_broken st
       else (cs_broken st ++ [status])%list)
      (if ls_isWorking status then S (cs_working st) else cs_working st)
      (fst (checkLink u (probeTimeout domain externalTimeout u)
                      (sleep rateLimit (cs_world st)))).
Proof.
  unfold checkOne, probeRecord, probeTimeout. cbn [fst snd].
  destruct (checkLink u
              (if isSameDomain u domain then DEFAULT_TIMEOUT else externalTimeout)
              (sleep rateLimit (cs_world st))) as [w2 [status|e]];
    cbn [fst snd ls_isWorking]; [|reflexivity].
  destruct (ls_isWorking status); reflexivity.
Qed.

(** The loop keeps the records that are not working, in the order of
    the probes, and counts the others. *)
Lemma checkLoop_log (domain : string) (externalTimeout rateLimit : Z)
      (urls : list string) :
  forall st,
    map fst (probeLog domain externalTimeout rateLimit urls (cs_world st)) = urls
    /\ cs_broken (fold_left (checkOne domain externalTimeout rateLimit) urls st)
       = (cs_broken st
          ++ filter notWorking
               (map (probeRecord domain externalTimeout)
                    (probeLog domain externalTimeout rateLimit urls
                              (cs_world st))))%list
    /\ cs_working (fold_left (checkOne domain externalTimeout rateLimit) urls st)
       = (cs_working st
          + List.length
              (filter ls_isWorking
                 (map (probeRecord domain externalTimeout)
                      (probeLog domain externalTimeout rateLimit urls
                                (cs_world st)))))%nat.
Proof.
  induction urls as [|u urls IH]; intros st;
    cbn [fold_left probeLog map filter fst].
  - rewrite app_nil_r. cbn. repeat split. lia.
  - destruct (IH (checkOne domain externalTimeout rateLimit st u))
      as (H0 & H1 & H2).
    rewrite H1, H2. clear H1 H2.
    rewrite checkOne_log in H0 |- *. cbn [cs_broken cs_working cs_world] in *.
    split; [now rewrite H0|]. unfold notWorking at 2.
    destruct (ls_isWorking (probeRecord domain externalTimeout
                              (u, sleep rateLimit (cs_world st)))); cbn [negb].
    + split; [reflexivity|]. cbn [List.length]. lia.
    + split; [now rewrite <- app_assoc | reflexivity].
Qed.

(** The record of a probe is the one [checkLink] resolves to; one that
    either summary filter counts is not working. *)
Lemma probeRecord_checkLink (domain : string) (externalTimeout : Z)
      (u : string) (w : World) :
  exists w',
    checkLink u (probeTimeout domain externalTimeout u) w
    = (w', Returned (probeRecord domain externalTimeout (u, w))).
Proof.
  unfold probeRecord. cbn [fst snd].
  destruct (checkLink_returns u (probeTimeout domain externalTimeout u) w)
    as (w' & ls & -> & _). exists w'. reflexivity.
Qed.

Lemma checkLink_counted (u : string) (timeout : Z) (w w' : World)
      (ls : LinkStatus) :
  checkLink u timeout w = (w', Returned ls) ->
  (is404 ls = true -> notWorking ls = true)
  /\ (isTimeout ls = true -> notWorking ls = true).
Proof.
  unfold checkLink, is404, isTimeout, notWorking.
  destruct (headRequest u timeout w) as [w1 [response|e]].
  - intros [= _ <-]. cbn. split; [|discriminate].
    intros H. apply Z.eqb_eq in H. rewrite H. reflexivity.
  - match goal with
    | |- context [if ?c then _ else _] => destruct c
    end; intros [= _ <-]; cbn; split; reflexivity.
Qed.

Lemma filter_filter_sub (A : Type) (f g : A -> bool) (l : list A) :
  (forall x, In x l -> f x = true -> g x = true) ->
  filter f (filter g l) = filter f l.
Proof.
  induction l as [|x l IH]; intros H; cbn [filter]; [reflexivity|].
  assert (IH' : filter f (filter g l) = filter f l)
    by (apply IH; intros y Hy; apply H; now right).
  destruct (g x) eqn:Eg; cbn [filter].
  - now rewrite IH'.
  - destruct (f x) eqn:Ef; [|exact IH'].
    rewrite (H x (or_introl eq_refl) Ef) in Eg. discriminate.
Qed.

Lemma records_counted (domain : string) (externalTimeout : Z)
      (probes : list (string * World)) (f : LinkStatus -> bool) :
  f = is404 \/ f = isTimeout ->
  filter f (filter notWorking (map (probeRecord domain externalTimeout) probes))
  = filter f (map (probeRecord domain externalTimeout) probes).
Proof.
  intros Hf. apply filter_filter_sub. intros x Hx Hfx.
  apply in_map_iff in Hx. destruct Hx as ([u w] & <- & _).
  destruct (probeRecord_checkLink domain externalTimeout u w) as (w' & Hc).
  apply checkLink_counted in Hc. destruct Hc as [H4 Ht].
  destruct Hf as [-> | ->]; auto.
Qed.
End LinkLoop.

(** C8.  In every result of a link check, each distinct candidate link
    is probed once; the broken list is the records of the probes that
    are not working, in the order of the probes, the working count is
    the number of the others, and the 404 and timeout counts of the
    summary are the numbers of probe records with status 404 and with
    an error text containing [timeout].  The record of a probe is the
    one [checkLink] resolves to: it is marked working exactly when its
    status is in [200, 400), and it is in the broken list exactly when
    it is not working; its status is the HTTP status of the answer when
    there is one, so that an answer 404 gives a broken entry with
    status 404 that the 404 filter keeps; a probe that fails gives a
    broken entry with status 0, and when the failure is a timeout its
    error text contains [timeout], the timeout filter keeps it and the
    404 filter does not. *)
Theorem checkLink_classification {U : URLImpl} {P : Platform}
        (options : CheckLinksOptions)
        (readCrawlData : string -> option (list PageMetadata))
        (w0 : World) (r : BrokenLinkResult) :
  checkBrokenLinks options readCrawlData w0 = Returned r ->
  map fst (probesOf options readCrawlData w0)
  = Set_addAll [] (candidateLinks options (readCrawlData (domainOf options)))
  /\ brokenLinks r = filter notWorking (recordsOf options readCrawlData w0)
  /\ workingLinks r
     = List.length (filter ls_isWorking (recordsOf options readCrawlData w0))
  /\ total404 (summary r) = List.length (filter is404 (brokenLinks r))
  /\ totalTimeouts (summary r) = List.length (filter isTimeout (brokenLinks r))
  /\ total404 (summary r)
     = List.length (filter is404 (recordsOf options readCrawlData w0))
  /\ totalTimeouts (summary r)
     = List.length (filter isTimeout (recordsOf options readCrawlData w0))
  /\ forall (u : string) (w : World),
       In (u, w) (probesOf options readCrawlData w0) ->
       exists w' ls,
         checkLink u (probeTimeout (domainOf options) (externalTimeoutOf options) u)
                   w
         = (w', Returned ls)
         /\ In ls (recordsOf options readCrawlData w0)
         /\ (ls_isWorking ls = true <-> (200 <= ls_status ls < 400)%Z)
         /\ (In ls (brokenLinks r) <-> ls_isWorking ls = false)
         /\ (forall response,
               snd (headRequest u (probeTimeout (domainOf options)
                                                (externalTimeoutOf options) u) w)
               = Returned response ->
               ls_status ls = resp_status response
               /\ (resp_status response = 404%Z ->
                   ls_status ls = 404%Z
                   /\ In ls (brokenLinks r)
                   /\ In ls (filter is404 (brokenLinks r))))
         /\ (forall e,
               snd (headRequest u (probeTimeout (domainOf options)
                                                (externalTimeoutOf options) u) w)
               = Thrown e ->
               ls_status ls = 0%Z
               /\ In ls (brokenLinks r)
               /\ (timedOut e ->
                   (exists msg, ls_error ls = Some msg
                                /\ Str.includes msg "timeout" = true)
                   /\ In ls (filter isTimeout (brokenLinks r))
                   /\ ~ In ls (filter is404 (brokenLinks r)))).
Proof.
  intros Hr.
  destruct (checkBrokenLinks_returned _ _ _ Hr)
    as (st & allLinks & -> & -> & Hb & Hw & _ & Hs).
  match type of Hb with
  | _ = cs_broken (fold_left (checkOne ?d ?e ?rl) ?ls ?s) =>
      destruct (checkLoop_log d e rl ls s) as (H0 & H1 & H2)
  end.
  cbn [cs_broken cs_working cs_world app Nat.add] in H0, H1, H2.
  rewrite <- Hb in H1, Hs. rewrite <- Hw in H2.
  fold (externalTimeoutOf options) in H0, H1, H2.
  fold (linkRateLimitOf options) in H0, H1, H2.
  fold (probesOf options readCrawlData w0) in H0, H1, H2.
  fold (recordsOf options readCrawlData w0) in H1, H2.
  assert (H404 : total404 (summary r)
                 = List.length (filter is404 (brokenLinks r)))
    by (rewrite Hs; reflexivity).
  assert (Hto : totalTimeouts (summary r)
                = List.length (filter isTimeout (brokenLinks r)))
    by (rewrite Hs; reflexivity).
  refine (conj H0 (conj H1 (conj H2 (conj H404 (conj Hto _))))).
  split; [rewrite H404, H1; unfold recordsOf;
          now rewrite records_counted by now left|].
  split; [rewrite Hto, H1; unfold recordsOf;
          now rewrite records_counted by now right|].
  intros u w Hin.
  destruct (checkLink_outcome u
              (probeTimeout (domainOf options) (externalTimeoutOf options) u) w)
    as (w' & ls & Hc & Hrange & Hstatus & Hnf & Herr & Htimeout & _).
  exists w', ls. split; [exact Hc|].
  assert (Hrec : In ls (recordsOf options readCrawlData w0)).
  { unfold recordsOf. apply in_map_iff. exists (u, w). split; [|exact Hin].
    unfold probeRecord. cbn [fst snd]. now rewrite Hc. }
  assert (Hbroken : In ls (brokenLinks r) <-> ls_isWorking ls = false).
  { rewrite H1, filter_In. unfold notWorking. rewrite negb_true_iff. tauto. }
  refine (conj Hrec (conj Hrange (conj Hbroken _))). split.
  - intros response Hresp. split; [now apply Hstatus|]. intros H404'.
    destruct (Hnf response Hresp H404') as (Hw' & Hs' & Hf').
    refine (conj Hs' (conj (proj2 Hbroken Hw') _)).
    apply filter_In. split; [now apply Hbroken | exact Hf'].
  - intros e He. destruct (Herr e He) as [Hw' Hs'].
    refine (conj Hs' (conj (proj2 Hbroken Hw') _)). intros Ht.
    destruct (Htimeout e He Ht) as (Hmsg & Hit & Hi4 & _).
    refine (conj Hmsg (conj _ _)).
    + apply filter_In. split; [now apply Hbroken | exact Hit].
    + rewrite filter_In. intros [_ H]. congruence.
Qed.

(** The link check of [probeSite]: of its three probes one is answered
    404 and one times out. *)
Lemma checkLink_classification_witness :
  exists r,
    checkBrokenLinks (P := sitePlatform probeSite) probeOptions
                     (fun _ => None) 0%Z = Returned r
    /\ total404 (summary r) = 1%nat
    /\ totalTimeouts (summary r) = 1%nat.
Proof.
  eexists. split; [vm_compute; reflexivity|].
  destruct (@checkLink_classification WhatwgURL (sitePlatform probeSite)
              probeOptions (fun _ => None) 0%Z _ eq_refl)
    as (_ & _ & _ & _ & _ & H4 & Ht & _).
  split; [exact H4 | exact Ht].
Defined.

Section Redirects.
Context {U : URLImpl} {P : Platform}.

(** The chain length is 1 exactly when the answer carries a request
    whose [url] is not the requested URL, a missing [url] included. *)
Lemma checkLink_chain_length (u : string) (timeout : Z) (w : World) :
  exists w' ls,
    checkLink u timeout w = (w', Returned ls)
    /\ chainBinary ls
    /\ (ls_redirectChainLength ls = 1%Z
        <-> exists response requestUrl,
            snd (headRequest u timeout w) = Returned response
            /\ resp_request response = Some requestUrl
            /\ differsFrom requestUrl u = true).
Proof.
  destruct (checkLink_returns u timeout w) as (w' & ls & H & _ & Hc).
  exists w', ls. split; [exact H|]. split; [exact Hc|].
  revert H. unfold checkLink.
  destruct (headRequest u timeout w) as [w1 [response|e]]; simpl.
  - intros [= _ <-]. simpl.
    destruct (resp_request response) as [requestUrl|] eqn:Ereq.
    + destruct (differsFrom requestUrl u) eqn:Ed; split.
      * intros _. exists response, requestUrl. now repeat split.
      * reflexivity.
      * discriminate.
      * intros (r' & q & [= <-] & Hq & Hd). congruence.
    + split; [discriminate|].
      intros (r' & q & [= <-] & Hq & _). congruence.
  - match goal with
    | |- context [if ?c then _ else _] => destruct c
    end; intros [= _ <-]; simpl; (split; [discriminate|]);
      intros (r' & q & Hr & _); discriminate.
Qed.

(** No entry of a result has a chain length above 2. *)
Lemma checkBrokenLinks_no_chain (options : CheckLinksOptions)
      (readCrawlData : string -> option (list PageMetadata))
      (w0 : World) (r : BrokenLinkResult) :
  checkBrokenLinks options readCrawlData w0 = Returned r ->
  Forall chainBinary (brokenLinks r)
  /\ totalRedirectChains (summary r) = 0%nat.
Proof.
  intros Hr.
  destruct (checkBrokenLinks_returned _ _ _ Hr)
    as (st & allLinks & _ & -> & Hb & _ & _ & Hs).
  assert (Hall : Forall chainBinary (brokenLinks r)).
  { rewrite Hb. apply checkLoop_counts. constructor. }
  split; [exact Hall|]. rewrite Hs, <- Hb. simpl.
  now apply chainBinary_not_counted.
Qed.
End Redirects.

(** C9 (the code departs from the claim).  The claim: the chain length
    is 1 exactly when the final request URL differs from the requested
    URL.  The code compares the requested URL with the [url] property
    of [response.request]; the request objects axios hands back carry
    no such property, so the comparison is with [undefined] and the
    length is 1 for every answered probe, whatever URL the last request
    went to: the probe of [https://example.com/ok], answered 200 by
    that very URL, is recorded with length 1.  What holds of the claim
    is the rest: the length is 0 or 1 for every outcome, and
    [totalRedirectChains] is 0 in every result. *)
Theorem redirect_chain_counts_every_answer :
  (forall (P : Platform) (u : string) (timeout : Z) (w : World)
          (response : HeadResponse),
      snd (headRequest u timeout w) = Returned response ->
      resp_request response = Some None ->
      exists w' ls,
        checkLink u timeout w = (w', Returned ls)
        /\ ls_redirectChainLength ls = 1%Z)
  /\ (exists response w' ls,
         snd (headRequest (Platform := sitePlatform probeSite)
                          "https://example.com/ok" DEFAULT_TIMEOUT 0%Z)
         = Returned response
         /\ resp_status response = 200%Z
         /\ resp_finalUrl response = "https://example.com/ok"
         /\ checkLink (P := sitePlatform probeSite)
                      "https://example.com/ok" DEFAULT_TIMEOUT 0%Z
            = (w', Returned ls)
         /\ ls_redirectChainLength ls = 1%Z)
  /\ (forall (P : Platform) (u : string) (timeout : Z) (w : World),
         exists w' ls,
           checkLink u timeout w = (w', Returned ls) /\ chainBinary ls)
  /\ (forall (U : URLImpl) (P : Platform) (options : CheckLinksOptions)
             (readCrawlData : string -> option (list PageMetadata))
             (w0 : World) (r : BrokenLinkResult),
         checkBrokenLinks options readCrawlData w0 = Returned r ->
         totalRedirectChains (summary r) = 0%nat).
Proof.
  split; [|split; [|split]].
  - intros P u timeout w response Hresp Hreq.
    destruct (checkLink_chain_length u timeout w) as (w' & ls & Hc & _ & H1).
    exists w', ls. split; [exact Hc|]. apply H1.
    exists response, None. repeat split; assumption.
  - do 3 eexists. split; [vm_compute; reflexivity|].
    repeat split; vm_compute; reflexivity.
  - intros P u timeout w.
    destruct (checkLink_returns u timeout w) as (w' & ls & Hc & _ & Hb).
    exists w', ls. split; assumption.
  - intros U P options readCrawlData w0 r Hr.
    now apply checkBrokenLinks_no_chain in Hr.
Qed.

(** The probe of [https://example.com/ok] on [probeSite]. *)
Lemma redirect_chain_counts_every_answer_witness :
  exists w' ls,
    checkLink (P := sitePlatform probeSite)
              "https://example.com/ok" DEFAULT_TIMEOUT 0%Z
    = (w', Returned ls)
    /\ ls_redirectChainLength ls = 1%Z.
Proof.
  apply (proj1 redirect_chain_counts_every_answer
               (sitePlatform probeSite) "https://example.com/ok"
               DEFAULT_TIMEOUT 0%Z
               (mkHeadResponse 200 "OK" (Some None) None
                               "https://example.com/ok")).
  - vm_compute. reflexivity.
  - reflexivity.
Defined.

(** C10.  In every result of a link check, the working count and the
    number of broken entries add up to [totalChecked], and
    [totalChecked] is the number of distinct candidate URLs. *)
Theorem link_check_counts {U : URLImpl} {P : Platform}
        (options : CheckLinksOptions)
        (readCrawlData : string -> option (list PageMetadata))
        (w0 : World) (r : BrokenLinkResult) :
  checkBrokenLinks options readCrawlData w0 = Returned r ->
  (workingLinks r + List.length (brokenLinks r) = totalChecked r)%nat
  /\ totalChecked r
     = List.length
         (nodup string_dec
                (candidateLinks options (readCrawlData (domainOf options)))).
Proof.
  intros Hr.
  destruct (checkBrokenLinks_returned _ _ _ Hr)
    as (st & allLinks & -> & -> & Hb & Hw & Ht & _).
  rewrite Hb, Hw, Ht. split.
  - match goal with
    | |- context [fold_left (checkOne ?d ?e ?rl) ?ls ?s] =>
        destruct (checkLoop_counts d e rl ls s) as [H _]
    end.
    rewrite H. simpl. reflexivity.
  - apply Set_addAll_length.
Qed.

(** The link check of [probeSite]: four URLs given, three distinct. *)
Lemma link_check_counts_witness :
  exists r,
    checkBrokenLinks (P := sitePlatform probeSite) probeOptions
                     (fun _ => None) 0%Z = Returned r
    /\ (workingLinks r + List.length (brokenLinks r) = totalChecked r)%nat
    /\ totalChecked r = 3%nat.
Proof.
  eexists. split; [vm_compute; reflexivity|].
  split.
  - refine (proj1 (@link_check_counts WhatwgURL (sitePlatform probeSite)
                     probeOptions (fun _ => None) 0%Z _ _)).
    vm_compute. reflexivity.
  - vm_compute. reflexivity.
Defined.

(* ================================================================== *)
(** * Further properties of the modelled code *)

(** ** Utilities *)

Section UtilFacts.
Context {U : URLImpl}.

Lemma isSameDomain_true (a b : string) :
  isSameDomain a b = true
  <-> exists ua ub, newURL a = Some ua /\ newURL b = Some ub
                    /\ hostname ua = hostname ub.
Proof.
  unfold isSameDomain.
  destruct (newURL a) as [ua|], (newURL b) as [ub|];
    try (split; [discriminate | intros (x & y & H1 & H2 & _); discriminate]).
  rewrite String.eqb_eq. split.
  - intros H. now exists ua, ub.
  - intros (x & y & [= <-] & [= <-] & H). exact H.
Qed.
End UtilFacts.



Lemma replace_not_included (s pat rep : string) :
  Str.includes s pat = false -> Str.replace s pat rep = s.
Proof.
  induction s as [|c s IH]; simpl; intros H;
    apply orb_false_iff in H; destruct H as [H1 H2]; rewrite H1.
  - reflexivity.
  - now rewrite IH.
Qed.

Lemma startsWith_append (p s : string) : Str.startsWith (p ++ s) p = true.
Proof.
  induction p as [|c p IH]; simpl; [reflexivity|].
  now rewrite Ascii.eqb_refl, IH.
Qed.

Lemma drop_append (p s : string) : Str.drop (String.length p) (p ++ s) = s.
Proof. induction p as [|c p IH]; simpl; [reflexivity | exact IH]. Qed.

Lemma replace_prefix (p s : string) : Str.replace (p ++ s) p "" = s.
Proof.
  destruct p as [|c p]; [destruct s; reflexivity|].
  change (Str.replace (String c p ++ s) (String c p) "")
    with (if Str.startsWith (String c p ++ s) (String c p)
          then "" ++ Str.drop (String.length (String c p)) (String c p ++ s)
          else String c (Str.replace (p ++ s) (String c p) "")).
  rewrite startsWith_append, drop_append. reflexivity.
Qed.

Lemma drop_length (n : nat) (s : string) :
  (n <= String.length s)%nat ->
  (String.length (Str.drop n s) + n = String.length s)%nat.
Proof.
  revert s. induction n as [|n IH]; intros s H; simpl; [lia|].
  destruct s as [|c s]; simpl in *; [lia|]. specialize (IH s). lia.
Qed.

Lemma startsWith_length (s p : string) :
  Str.startsWith s p = true -> (String.length p <= String.length s)%nat.
Proof.
  revert s. induction p as [|c p IH]; intros s; simpl; [lia|].
  destruct s as [|d s]; [discriminate|]. rewrite andb_true_iff.
  intros [_ H]. apply IH in H. simpl. lia.
Qed.

Lemma replace_included_length (s pat : string) :
  Str.includes s pat = true ->
  (String.length (Str.replace s pat "") + String.length pat
   = String.length s)%nat.
Proof.
  induction s as [|c s IH]; simpl; intros H;
    destruct (Str.startsWith _ pat) eqn:E.
  - apply startsWith_length in E. simpl in *.
    destruct pat; simpl in *; lia.
  - discriminate.
  - apply startsWith_length in E.
    pose proof (@drop_length (String.length pat) (String c s) E) as Hd.
    simpl in Hd |- *. lia.
  - simpl in H. simpl. rewrite <- IH by assumption. lia.
Qed.

(** X2.  [extractDomain] answers [unknown-domain] for a URL that does
    not parse; otherwise it answers the host name with its first
    [www.] removed: the host name itself when [www.] does not occur,
    the rest when the host name starts with [www.], and in every case
    where [www.] occurs a name four characters shorter. *)
Theorem extractDomain_cases {U : URLImpl} :
  (forall pageUrl, newURL pageUrl = None ->
                   extractDomain pageUrl = "unknown-domain")
  /\ (forall pageUrl u, newURL pageUrl = Some u ->
                        Str.includes (hostname u) "www." = false ->
                        extractDomain pageUrl = hostname u)
  /\ (forall pageUrl u h, newURL pageUrl = Some u ->
                          hostname u = "www." ++ h ->
                          extractDomain pageUrl = h)
  /\ (forall pageUrl u, newURL pageUrl = Some u ->
                        Str.includes (hostname u) "www." = true ->
                        (String.length (extractDomain pageUrl) + 4
                         = String.length (hostname u))%nat).
Proof.
  unfold extractDomain. split; [|split; [|split]].
  - intros pageUrl ->. reflexivity.
  - intros pageUrl u -> H. now apply replace_not_included.
  - intros pageUrl u h -> ->. apply replace_prefix.
  - intros pageUrl u -> H. now apply replace_included_length in H.
Qed.

(** The inputs of the repository's tests. *)
Lemma extractDomain_cases_witness :
  extractDomain (U := WhatwgURL) "not-a-url" = "unknown-domain"
  /\ extractDomain (U := WhatwgURL) "https://www.example.com" = "example.com"
  /\ extractDomain (U := WhatwgURL) "http://subdomain.example.com"
     = "subdomain.example.com".
Proof.
  destruct (@extractDomain_cases WhatwgURL) as (Hbad & Hkeep & Hwww & _).
  split; [|split].
  - apply Hbad. vm_compute. reflexivity.
  - apply (Hwww _ (Whatwg.mkUrl "https" "www.example.com" [""] None None));
      vm_compute; reflexivity.
  - apply (Hkeep _ (Whatwg.mkUrl "http" "subdomain.example.com" [""] None None));
      vm_compute; reflexivity.
Defined.

Lemma collapseHyphens_head (s : string) :
  Str.startsWith (Slug.collapseHyphens s) "-" = Str.startsWith s "-".
Proof.
  induction s as [|c s IH]; [reflexivity|].
  change (Slug.collapseHyphens (String c s))
    with (if Ascii.eqb c "-" && Str.startsWith s "-"
          then Slug.collapseHyphens s
          else String c (Slug.collapseHyphens s)).
  destruct (Ascii.eqb c "-") eqn:Ec.
  - apply Ascii.eqb_eq in Ec. subst c.
    destruct (Str.startsWith s "-") eqn:Es; cbn [andb].
    + rewrite IH. reflexivity.
    + reflexivity.
  - reflexivity.
Qed.

Lemma collapseHyphens_no_run (s : string) :
  Str.includes (Slug.collapseHyphens s) "--" = false.
Proof.
  induction s as [|c s IH]; [reflexivity|].
  change (Slug.collapseHyphens (String c s))
    with (if Ascii.eqb c "-" && Str.startsWith s "-"
          then Slug.collapseHyphens s
          else String c (Slug.collapseHyphens s)).
  destruct (Ascii.eqb c "-" && Str.startsWith s "-") eqn:E; [exact IH|].
  change (Str.includes (String c (Slug.collapseHyphens s)) "--")
    with (Str.startsWith (String c (Slug.collapseHyphens s)) "--"
          || Str.includes (Slug.collapseHyphens s) "--").
  rewrite IH, orb_false_r.
  change (Str.startsWith (String c (Slug.collapseHyphens s)) "--")
    with (Ascii.eqb "-" c && Str.startsWith (Slug.collapseHyphens s) "-").
  rewrite collapseHyphens_head, (Ascii.eqb_sym "-"%char c). exact E.
Qed.

Lemma collapseHyphens_allChars (p : ascii -> bool) (s : string) :
  Slug.allChars p s = true -> Slug.allChars p (Slug.collapseHyphens s) = true.
Proof.
  induction s as [|c s IH]; [reflexivity|].
  change (Slug.collapseHyphens (String c s))
    with (if Ascii.eqb c "-" && Str.startsWith s "-"
          then Slug.collapseHyphens s
          else String c (Slug.collapseHyphens s)).
  intros H. change (p c && Slug.allChars p s = true) in H.
  apply andb_true_iff in H. destruct H as [Hc Hs].
  destruct (Ascii.eqb c "-" && Str.startsWith s "-"); [now apply IH|].
  change (p c && Slug.allChars p (Slug.collapseHyphens s) = true).
  now rewrite Hc, IH.
Qed.

Lemma keepSlugChars_allChars (s : string) :
  Slug.allChars Slug.isSlugChar (Slug.keepSlugChars s) = true.
Proof.
  induction s as [|c s IH]; [reflexivity|]. simpl.
  destruct (Slug.isSlugChar c) eqn:E; simpl; [now rewrite E|exact IH].
Qed.

(** X3.  Whatever the URL, the slug [getPageSlug] returns is made of
    letters, digits, [_] and [-] only and never contains two hyphens in
    a row; it is [page] when the URL does not parse and [home] when the
    path is [/]. *)
Theorem getPageSlug_is_safe {U : URLImpl} :
  (forall pageUrl,
      Slug.allChars Slug.isSlugChar (getPageSlug pageUrl) = true
      /\ Str.includes (getPageSlug pageUrl) "--" = false)
  /\ (forall pageUrl, newURL pageUrl = None -> getPageSlug pageUrl = "page")
  /\ (forall pageUrl u, newURL pageUrl = Some u -> pathname u = "/" ->
                        getPageSlug pageUrl = "home").
Proof.
  unfold getPageSlug. split; [|split].
  - intros pageUrl. destruct (newURL pageUrl) as [u|];
      [|split; reflexivity].
    split; [|apply collapseHyphens_no_run].
    apply collapseHyphens_allChars, keepSlugChars_allChars.
  - intros pageUrl ->. reflexivity.
  - intros pageUrl u -> ->. reflexivity.
Qed.

(** The inputs of the repository's tests. *)
Lemma getPageSlug_is_safe_witness :
  getPageSlug (U := WhatwgURL) "https://example.com/" = "home"
  /\ getPageSlug (U := WhatwgURL) "not a url" = "page".
Proof.
  destruct (@getPageSlug_is_safe WhatwgURL) as (_ & Hbad & Hhome).
  split.
  - apply (Hhome _ (Whatwg.mkUrl "https" "example.com" [""] None None));
      vm_compute; reflexivity.
  - apply Hbad. vm_compute. reflexivity.
Defined.

(** ** Robots policy, continued *)

Section RobotsMore.
Context {RE : RegExpImpl}.

Lemma step_canSitemap (userAgent line : string) (st st' : Robots.ParseState) :
  Robots.step userAgent st line = Some st' ->
  Robots.canSitemap st = true -> Robots.canSitemap st' = true.
Proof.
  unfold Robots.step. intros H Hs.
  repeat match type of H with
         | (if ?c then _ else _) = _ => destruct c
         | match ?c with Some _ => _ | None => _ end = _ => destruct c
         end;
    try discriminate; injection H as <-; simpl; auto.
Qed.

Lemma parseLines_canSitemap (userAgent : string) (lines : list string) :
  forall st st',
    Robots.parseLines userAgent st lines = Some st' ->
    Robots.canSitemap st = true -> Robots.canSitemap st' = true.
Proof.
  induction lines as [|line rest IH]; intros st st'; simpl.
  - now intros [= <-].
  - destruct (Robots.step userAgent st line) as [st1|] eqn:E; [|discriminate].
    intros H Hs. apply (IH _ _ H). exact (step_canSitemap _ _ _ E Hs).
Qed.

Lemma parseLines_app (userAgent : string) (l1 l2 : list string) :
  forall st,
    Robots.parseLines userAgent st (l1 ++ l2)
    = match Robots.parseLines userAgent st l1 with
      | Some st1 => Robots.parseLines userAgent st1 l2
      | None => None
      end.
Proof.
  induction l1 as [|line rest IH]; intros st; simpl; [reflexivity|].
  destruct (Robots.step userAgent st line); [apply IH | reflexivity].
Qed.

(** Outside a block nothing is collected: a line that does not open a
    block leaves the initial state as it is. *)
Lemma step_outside_block (userAgent line : string) :
  entersBlock userAgent line = false ->
  Robots.step userAgent Robots.initState line = Some Robots.initState.
Proof.
  unfold entersBlock, Robots.step. intros H.
  destruct (Str.startsWith (Str.trim line) "User-agent:"); simpl in H.
  - now rewrite H.
  - destruct (Str.startsWith (Str.trim line) "Sitemap:"); reflexivity.
Qed.

Lemma step_enters_block (userAgent line : string) (st : Robots.ParseState) :
  entersBlock userAgent line = true ->
  Robots.step userAgent st line
  = Some (Robots.mkParseState
            (Str.trim (Str.replace (Str.trim line) "User-agent:" ""))
            [] [] (Robots.canSitemap st)).
Proof.
  unfold entersBlock. rewrite andb_true_iff. intros [H1 H2].
  rewrite (step_user_agent _ _ _ H1). now rewrite H2.
Qed.
End RobotsMore.

Lemma parseLines_outside_block {RE : RegExpImpl} (userAgent : string)
      (lines : list string) :
  (forall line, In line lines -> entersBlock userAgent line = false) ->
  Robots.parseLines userAgent Robots.initState lines = Some Robots.initState.
Proof.
  induction lines as [|line rest IH]; intros H; [reflexivity|].
  simpl. rewrite step_outside_block by (apply H; now left).
  apply IH. intros l Hl. apply H. now right.
Qed.

Lemma split_nonempty (sep : ascii) (s : string) : Str.split sep s <> [].
Proof.
  destruct s as [|c s]; simpl; [discriminate|].
  destruct (Ascii.eqb c sep); [discriminate|].
  destruct (Str.split sep s); discriminate.
Qed.

Lemma split_app (sep : ascii) (a b : string) :
  Str.split sep (a ++ String sep b) = (Str.split sep a ++ Str.split sep b)%list.
Proof.
  induction a as [|c a IH]; simpl.
  - now rewrite Ascii.eqb_refl.
  - destruct (Ascii.eqb c sep); [now rewrite IH|].
    rewrite IH. pose proof (split_nonempty sep a) as Hne.
    destruct (Str.split sep a); [congruence | reflexivity].
Qed.

(** X4.  The [canSitemap] flag of a parsed robots document is [true]
    whatever the document says: it starts as [true] and the only
    assignment sets it to [true]. *)
Theorem canSitemap_always_true {RE : RegExpImpl}
        (robotsContent userAgent : string) (p : Robots.Policy) :
  Robots.parseRobotsText robotsContent userAgent = Some p ->
  Robots.pol_canSitemap p = true.
Proof.
  unfold Robots.parseRobotsText.
  destruct (Robots.parseLines userAgent Robots.initState
                              (Str.splitLines robotsContent)) as [st|] eqn:E;
    [|discriminate].
  intros [= <-]. simpl. now apply (parseLines_canSitemap _ _ _ E).
Qed.

(** A document without any [Sitemap:] line. *)
Lemma canSitemap_always_true_witness :
  option_map Robots.pol_canSitemap
             (Robots.parseRobotsText (RE := JsRegexImpl) robotsGooglebotOnly
                                     "Googlebot")
  = Some true.
Proof.
  destruct (Robots.parseRobotsText (RE := JsRegexImpl) robotsGooglebotOnly
                                   "Googlebot") as [p|] eqn:E.
  - simpl. f_equal. exact (canSitemap_always_true _ _ E).
  - vm_compute in E. discriminate.
Defined.

(** X5.  A robots document in which no line opens a block for the
    requested identity (no [User-agent] line naming it or [*]) parses
    to the policy without rules, which permits every path.  The empty
    document, which stands for a robots file that could not be fetched,
    is one of them. *)
Theorem parseRobotsText_without_block {RE : RegExpImpl}
        (robotsContent userAgent : string) :
  (forall line, In line (Str.splitLines robotsContent) ->
                entersBlock userAgent line = false) ->
  Robots.parseRobotsText robotsContent userAgent
  = Some (Robots.mkPolicy [] [] true)
  /\ forall path, Robots.canCrawl (Robots.mkPolicy [] [] true) path = true.
Proof.
  intros H. split; [|reflexivity]. unfold Robots.parseRobotsText.
  now rewrite (parseLines_outside_block _ _ H).
Qed.

(** Rules that no block introduces, and the empty document. *)
Lemma parseRobotsText_without_block_witness :
  Robots.parseRobotsText (RE := JsRegexImpl)
                         ("Disallow: /private" ++ LF ++ "User-agent: Bingbot"
                          ++ LF ++ "Disallow: /") "Googlebot"
  = Some (Robots.mkPolicy [] [] true)
  /\ Robots.parseRobotsText (RE := JsRegexImpl) "" "Googlebot"
     = Some (Robots.mkPolicy [] [] true).
Proof.
  split.
  - apply parseRobotsText_without_block.
    intros line H. vm_compute in H.
    repeat (destruct H as [<-|H]; [vm_compute; reflexivity|]). destruct H.
  - apply parseRobotsText_without_block.
    intros line [<-|[]]. vm_compute. reflexivity.
Defined.

(** X6.  The last matching block wins: when the lines before a line
    that opens a block parse without error, they have no effect on the
    policy; the document parses as if it started at that line. *)
Theorem parseRobotsText_last_block_wins {RE : RegExpImpl}
        (before line rest userAgent : string) (p0 : Robots.Policy) :
  Robots.parseRobotsText before userAgent = Some p0 ->
  entersBlock userAgent line = true ->
  Str.splitLines line = [line] ->
  Robots.parseRobotsText (before ++ LF ++ line ++ LF ++ rest) userAgent
  = Robots.parseRobotsText (line ++ LF ++ rest) userAgent.
Proof.
  unfold Robots.parseRobotsText, Str.splitLines, LF. intros Hb He Hl.
  cbn [append]. rewrite !split_app, Hl, parseLines_app.
  destruct (Robots.parseLines userAgent Robots.initState
                              (Str.split "010" before)) as [st1|] eqn:E1;
    [|discriminate].
  simpl. rewrite !(step_enters_block _ _ _ He).
  rewrite (parseLines_canSitemap _ _ _ E1 eq_refl). reflexivity.
Qed.

(** A Googlebot block after a wildcard block: only the second counts. *)
Lemma parseRobotsText_last_block_wins_witness :
  Robots.parseRobotsText (RE := JsRegexImpl)
    (("User-agent: *" ++ LF ++ "Disallow: /") ++ LF ++ "User-agent: Googlebot"
     ++ LF ++ "Disallow: /tmp") "Googlebot"
  = Robots.parseRobotsText (RE := JsRegexImpl)
      ("User-agent: Googlebot" ++ LF ++ "Disallow: /tmp") "Googlebot".
Proof.
  eapply parseRobotsText_last_block_wins; vm_compute; reflexivity.
Defined.

(** ** The crawler, continued *)

Section CrawlMore.
Context {U : URLImpl} {RE : RegExpImpl} {P : Platform}.

Lemma isSameDomain_trans (a b c : string) :
  isSameDomain a b = true -> isSameDomain b c = true ->
  isSameDomain a c = true.
Proof.
  intros Hab Hbc.
  apply isSameDomain_true in Hab. destruct Hab as (ua & ub & Ha & Hb & E1).
  apply isSameDomain_true in Hbc. destruct Hbc as (ub' & uc & Hb' & Hc & E2).
  apply isSameDomain_true. exists ua, uc. repeat split; try assumption.
  rewrite Hb in Hb'. injection Hb' as <-. congruence.
Qed.

(** The invariant of the link loop of [crawlPage]. *)
Lemma addLink_fold (pageUrl : string) (hrefs : list string) :
  forall acc,
    NoDup (fst acc) -> NoDup (snd acc) ->
    (forall l, In l (fst acc) ->
               Str.startsWith l "http" = true /\ isSameDomain l pageUrl = true) ->
    (forall l, In l (snd acc) ->
               Str.startsWith l "http" = true /\ isSameDomain l pageUrl = false) ->
    NoDup (fst (fold_left (addLink pageUrl) hrefs acc))
    /\ NoDup (snd (fold_left (addLink pageUrl) hrefs acc))
    /\ (forall l, In l (fst (fold_left (addLink pageUrl) hrefs acc)) ->
                  Str.startsWith l "http" = true
                  /\ isSameDomain l pageUrl = true)
    /\ (forall l, In l (snd (fold_left (addLink pageUrl) hrefs acc)) ->
                  Str.startsWith l "http" = true
                  /\ isSameDomain l pageUrl = false)
    /\ (forall l, In l (fst acc) ->
                  In l (fst (fold_left (addLink pageUrl) hrefs acc)))
    /\ (forall l, In l (snd acc) ->
                  In l (snd (fold_left (addLink pageUrl) hrefs acc)))
    /\ (forall href,
           In href hrefs -> href <> "" ->
           Str.startsWith (normalizeUrl href (Some pageUrl)) "http" = true ->
           In (normalizeUrl href (Some pageUrl))
              (if isSameDomain (normalizeUrl href (Some pageUrl)) pageUrl
               then fst (fold_left (addLink pageUrl) hrefs acc)
               else snd (fold_left (addLink pageUrl) hrefs acc))).
Proof.
  induction hrefs as [|href rest IH]; intros [i e] Hi He Hin Hex;
    cbn [fold_left].
  - cbn [fst snd] in *.
    repeat split; auto; try (now apply Hin); try (now apply Hex).
    intros href [].
  - cbn [fst snd] in Hi, He, Hin, Hex.
    assert (Hacc : NoDup (fst (addLink pageUrl (i, e) href))
              /\ NoDup (snd (addLink pageUrl (i, e) href))
              /\ (forall l, In l (fst (addLink pageUrl (i, e) href)) ->
                            Str.startsWith l "http" = true
                            /\ isSameDomain l pageUrl = true)
              /\ (forall l, In l (snd (addLink pageUrl (i, e) href)) ->
                            Str.startsWith l "http" = true
                            /\ isSameDomain l pageUrl = false)
              /\ (forall l, In l i -> In l (fst (addLink pageUrl (i, e) href)))
              /\ (forall l, In l e -> In l (snd (addLink pageUrl (i, e) href)))
              /\ (href <> "" ->
                  Str.startsWith (normalizeUrl href (Some pageUrl)) "http" = true ->
                  In (normalizeUrl href (Some pageUrl))
                     (if isSameDomain (normalizeUrl href (Some pageUrl)) pageUrl
                      then fst (addLink pageUrl (i, e) href)
                      else snd (addLink pageUrl (i, e) href)))).
    { unfold addLink. destruct (Str.truthy href) eqn:Et.
      2:{ cbn [fst snd]. repeat split; auto; try (now apply Hin); try (now apply Hex).
          intros Hne. destruct href; [congruence | discriminate]. }
      destruct (Str.startsWith (normalizeUrl href (Some pageUrl)) "http") eqn:Eh.
      2:{ cbn [fst snd]. repeat split; auto; try (now apply Hin); try (now apply Hex).
          discriminate. }
      destruct (isSameDomain (normalizeUrl href (Some pageUrl)) pageUrl) eqn:Es;
        cbn [fst snd].
      - split; [now apply Set_add_NoDup|]. split; [assumption|].
        split.
        { intros l Hl. apply Set_add_In in Hl. destruct Hl as [Hl| ->];
            [now apply Hin | now split]. }
        split; [assumption|].
        split; [intros l Hl; apply Set_add_In; now left|].
        split; [auto|]. intros _ _. apply Set_add_In. now right.
      - split; [assumption|]. split; [now apply Set_add_NoDup|].
        split; [assumption|].
        split.
        { intros l Hl. apply Set_add_In in Hl. destruct Hl as [Hl| ->];
            [now apply Hex | now split]. }
        split; [auto|].
        split; [intros l Hl; apply Set_add_In; now left|].
        intros _ _. apply Set_add_In. now right. }
    destruct Hacc as (A1 & A2 & A3 & A4 & A5 & A6 & A7).
    destruct (IH (addLink pageUrl (i, e) href) A1 A2 A3 A4)
      as (B1 & B2 & B3 & B4 & B5 & B6 & B7).
    refine (conj B1 (conj B2 (conj B3 (conj B4 (conj _ (conj _ _)))))).
    + intros l Hl. apply B5, A5, Hl.
    + intros l Hl. apply B6, A6, Hl.
    + intros h [<-|Hh] Hne Hhttp; [|now apply B7].
      specialize (A7 Hne Hhttp).
      destruct (isSameDomain (normalizeUrl href (Some pageUrl)) pageUrl);
        [now apply B5 | now apply B6].
Qed.
End CrawlMore.

(** X7.  A page that [crawlPage] returns is stored under the requested
    URL.  Its internal and external link lists are duplicate-free and
    disjoint, hold only URLs starting with [http], the internal ones on
    the page's own host and the external ones not; and every non-empty
    [href] of the document whose normalised form starts with [http] is
    in one of the two lists.  The answer is [null] exactly when the
    fetch fails. *)
Theorem crawlPage_links {U : URLImpl} {P : Platform}
        (pageUrl : string) (rateLimit : Z) (w : World) :
  exists w' r,
    crawlPage pageUrl rateLimit w = (w', Returned r)
    /\ (r = None
        <-> exists e,
            snd (getPage pageUrl (if (rateLimit >? 0)%Z
                                  then sleep rateLimit w else w)) = Thrown e)
    /\ forall md,
         r = Some md ->
         url md = pageUrl
         /\ NoDup (internal (links md)) /\ NoDup (external (links md))
         /\ (forall l, In l (internal (links md)) ->
                       Str.startsWith l "http" = true
                       /\ isSameDomain l pageUrl = true)
         /\ (forall l, In l (external (links md)) ->
                       Str.startsWith l "http" = true
                       /\ isSameDomain l pageUrl = false)
         /\ (forall l, In l (internal (links md)) ->
                       ~ In l (external (links md)))
         /\ exists doc,
             snd (getPage pageUrl (if (rateLimit >? 0)%Z
                                   then sleep rateLimit w else w))
             = Returned doc
             /\ forall href,
                  In href (doc_hrefs doc) -> href <> "" ->
                  Str.startsWith (normalizeUrl href (Some pageUrl)) "http"
                  = true ->
                  In (normalizeUrl href (Some pageUrl))
                     (internal (links md) ++ external (links md)).
Proof.
  unfold crawlPage.
  destruct (getPage pageUrl (if (rateLimit >? 0)%Z then sleep rateLimit w else w))
    as [w2 [doc|e]]; cbn [snd].
  - destruct (@addLink_fold U pageUrl (doc_hrefs doc) ([], []))
      as (B1 & B2 & B3 & B4 & _ & _ & B7);
      [constructor | constructor | intros l [] | intros l [] |].
    destruct (fold_left (addLink pageUrl) (doc_hrefs doc) ([], [])) as [i x].
    cbn [fst snd] in *. eexists. eexists. split; [reflexivity|]. split.
    + split; [discriminate | intros [e He]; discriminate].
    + intros md [= <-]. cbn [url links internal external].
      refine (conj eq_refl (conj B1 (conj B2 (conj B3 (conj B4 (conj _ _)))))).
      * intros l Hi Hx. destruct (B3 l Hi) as [_ H1].
        destruct (B4 l Hx) as [_ H2]. congruence.
      * exists doc. split; [reflexivity|]. intros href Hh Hne Hhttp.
        specialize (B7 href Hh Hne Hhttp). apply in_or_app.
        destruct (isSameDomain (normalizeUrl href (Some pageUrl)) pageUrl);
          [now left | now right].
  - eexists. eexists. split; [reflexivity|]. split.
    + split; [intros _; now exists e | reflexivity].
    + discriminate.
Qed.

(** The home page of the self-linking site. *)
Lemma crawlPage_links_witness :
  exists w' md,
    crawlPage (P := sitePlatform selfLinkSite) "https://example.com/" 0 0%Z
    = (w', Returned (Some md))
    /\ NoDup (internal (links md)).
Proof.
  destruct (@crawlPage_links WhatwgURL (sitePlatform selfLinkSite)
              "https://example.com/" 0 0%Z) as (w' & r & H & _ & Hmd).
  destruct r as [md|]; [|vm_compute in H; discriminate].
  exists w', md. split; [exact H|].
  destruct (Hmd md eq_refl) as (_ & Hnd & _). exact Hnd.
Defined.

(** X8.  Every URL that [fetchSitemap] returns is non-empty and on the
    host of the sitemap URL; when the request or the XML parsing fails,
    or the document has no [urlset.url], the list is empty. *)
Theorem fetchSitemap_same_domain {U : URLImpl} {P : Platform}
        (sitemapUrl : string) (w : World) :
  (forall u, In u (snd (fetchSitemap sitemapUrl w)) ->
             u <> "" /\ isSameDomain u sitemapUrl = true)
  /\ (snd (getSitemap sitemapUrl w) = Returned None ->
      snd (fetchSitemap sitemapUrl w) = [])
  /\ (forall e, snd (getSitemap sitemapUrl w) = Thrown e ->
                snd (fetchSitemap sitemapUrl w) = []).
Proof.
  unfold fetchSitemap.
  destruct (getSitemap sitemapUrl w) as [w' [[entries|]|e]]; cbn [snd].
  - split; [|split; discriminate].
    intros u Hu. apply filter_In in Hu. destruct Hu as [Hu Hs].
    split; [|exact Hs]. apply in_flat_map in Hu.
    destruct Hu as ([loc|] & _ & Hin); [|destruct Hin].
    destruct (Str.truthy loc) eqn:E; [|destruct Hin].
    destruct Hin as [<-|[]]. intros ->. discriminate.
  - split; [intros u []|]. split; reflexivity.
  - split; [intros u []|]. split; reflexivity.
Qed.

(** The sitemap of [sitemapSite]. *)
Lemma fetchSitemap_same_domain_witness :
  isSameDomain (U := WhatwgURL) "https://example.com/gone"
               "https://example.com/sitemap.xml" = true.
Proof.
  destruct (@fetchSitemap_same_domain WhatwgURL (sitePlatform sitemapSite)
              "https://example.com/sitemap.xml" 0%Z) as (H & _ & _).
  apply H. vm_compute. right. left. reflexivity.
Defined.

Section CrawlEntries.
Context {U : URLImpl} {RE : RegExpImpl} {P : Platform}.

Lemma crawlPage_internal (pageUrl : string) (rateLimit : Z) (w w' : World)
      (md : PageMetadata) :
  crawlPage pageUrl rateLimit w = (w', Returned (Some md)) ->
  url md = pageUrl
  /\ forall l, In l (internal (links md)) -> isSameDomain l pageUrl = true.
Proof.
  unfold crawlPage.
  destruct (getPage pageUrl (if (rateLimit >? 0)%Z then sleep rateLimit w else w))
    as [w2 [doc|e]]; [|discriminate].
  destruct (@addLink_fold U pageUrl (doc_hrefs doc) ([], []))
    as (_ & _ & B3 & _);
    [constructor | constructor | intros l [] | intros l [] |].
  destruct (fold_left (addLink pageUrl) (doc_hrefs doc) ([], [])) as [i x].
  intros [= _ <-]. split; [reflexivity|].
  intros l Hl. now apply B3.
Qed.

Lemma assoc_app_present (A : Type) (k : string) (m ext : list (string * A)) :
  Map_has m k = true -> assoc k (m ++ ext) = assoc k m.
Proof.
  induction m as [|[k' a] m IH]; simpl; [discriminate|].
  destruct (String.eqb k' k); [reflexivity | exact IH].
Qed.

Section Entries.
Variable canCrawlFn : string -> bool.
Variables maxDepth maxPages : Q.
Variable rateLimit : Z.

Lemma crawledEntry_step (root link k : string) (md0 md : PageMetadata) :
  crawledEntry canCrawlFn root root md0 ->
  In link (internal (links md0)) ->
  crawledEntry canCrawlFn link k md ->
  crawledEntry canCrawlFn root k md.
Proof.
  intros (_ & _ & _ & Hlinks) Hin (Hperm & Hurl & Hdom & Hl).
  refine (conj Hperm (conj Hurl (conj _ Hl))).
  apply (isSameDomain_trans _ _ _ Hdom). now apply Hlinks.
Qed.

Lemma crawlLinks_entries (rec : string -> CrawlState -> option CrawlState)
      (ls : list string) :
  (forall link s s',
      rec link s = Some s' ->
      exists ext,
        pages s' = (pages s ++ ext)%list
        /\ Forall (fun kv => crawledEntry canCrawlFn link (fst kv) (snd kv)) ext) ->
  forall st st',
    crawlLinks rec maxPages ls st = Some st' ->
    exists ext,
      pages st' = (pages st ++ ext)%list
      /\ Forall (fun kv => exists link,
                     In link ls
                     /\ crawledEntry canCrawlFn link (fst kv) (snd kv)) ext.
Proof.
  intros Hrec. induction ls as [|link rest IH]; intros st st'; simpl.
  - intros [= <-]. exists []. split; [now rewrite app_nil_r | constructor].
  - assert (Hrest : forall s, crawlLinks rec maxPages rest s = Some st' ->
              exists ext,
                pages st' = (pages s ++ ext)%list
                /\ Forall (fun kv => exists l,
                               (link = l \/ In l rest)
                               /\ crawledEntry canCrawlFn l (fst kv) (snd kv))
                          ext).
    { intros s Hs. destruct (IH _ _ Hs) as (ext & He & Hf).
      exists ext. split; [exact He|].
      eapply Forall_impl; [|exact Hf].
      intros kv (l & Hl & Hc). exists l. split; [now right | exact Hc]. }
    destruct (negb (Map_has (pages st) link)
              && Num.lt (Z.of_nat (Map_size (pages st))) maxPages);
      [|apply Hrest].
    destruct (rec link st) as [s1|] eqn:E; [|discriminate].
    intros H. destruct (Hrec _ _ _ E) as (ext1 & He1 & Hf1).
    destruct (Hrest _ H) as (ext2 & He2 & Hf2).
    exists (ext1 ++ ext2)%list. split.
    + now rewrite He2, He1, app_assoc.
    + apply Forall_app. split; [|exact Hf2].
      eapply Forall_impl; [|exact Hf1].
      intros kv Hc. exists link. split; [now left | exact Hc].
Qed.

(** [recursiveCrawl] only appends to the page map, and what it appends
    are pages it was permitted to fetch, on the host of its entry
    URL. *)
Lemma recursiveCrawl_entries (fuel : nat) :
  forall pageUrl depth st st',
    recursiveCrawl fuel canCrawlFn maxDepth maxPages rateLimit
                   pageUrl depth st = Some st' ->
    exists ext,
      pages st' = (pages st ++ ext)%list
      /\ Forall (fun kv => crawledEntry canCrawlFn pageUrl (fst kv) (snd kv))
                ext.
Proof.
  induction fuel as [|fuel IH]; intros pageUrl depth st st'; simpl;
    [discriminate|].
  assert (Hnone : Some st = Some st' ->
            exists ext,
              pages st' = (pages st ++ ext)%list
              /\ Forall (fun kv => crawledEntry canCrawlFn pageUrl
                                                (fst kv) (snd kv)) ext).
  { intros [= <-]. exists []. split; [now rewrite app_nil_r | constructor]. }
  destruct (Num.gt depth maxDepth
            || Num.ge (Z.of_nat (Map_size (pages st))) maxPages); [exact Hnone|].
  destruct (Map_has (pages st) pageUrl) eqn:Ehas; [exact Hnone|].
  destruct (newURL pageUrl) as [urlObj|] eqn:Eurl; [|exact Hnone].
  destruct (canCrawlFn (pathname urlObj)) eqn:Ecan; [|exact Hnone].
  cbn [negb].
  destruct (crawlPage pageUrl 0 (sleep rateLimit (world st)))
    as [w [[md|]|e]] eqn:Epage.
  - destruct (crawlPage_internal _ _ _ Epage) as [Hurl Hint].
    assert (Hroot : crawledEntry canCrawlFn pageUrl pageUrl md).
    { refine (conj _ (conj Hurl (conj _ Hint))).
      - now exists urlObj.
      - unfold isSameDomain. rewrite Eurl. apply String.eqb_refl. }
    intros H. apply crawlLinks_entries in H.
    + destruct H as (ext & He & Hf). cbn [pages] in He.
      rewrite Map_set_fresh in He by assumption.
      exists ((pageUrl, md) :: ext). split.
      * now rewrite He, <- app_assoc.
      * constructor; [exact Hroot|].
        eapply Forall_impl; [|exact Hf].
        intros kv (link & Hl & Hc). exact (crawledEntry_step Hroot Hl Hc).
    + intros link s s' Hs. exact (IH _ _ _ _ Hs).
  - intros [= <-]. exists []. split; [now rewrite app_nil_r | constructor].
  - intros [= <-]. exists []. split; [now rewrite app_nil_r | constructor].
Qed.
End Entries.

(** The two functions a policy can be replaced by without changing the
    crawl are those that agree on every path. *)
Lemma crawlLinks_ext (rec1 rec2 : string -> CrawlState -> option CrawlState)
      (maxPages : Q) :
  (forall link s, rec1 link s = rec2 link s) ->
  forall ls st, crawlLinks rec1 maxPages ls st = crawlLinks rec2 maxPages ls st.
Proof.
  intros H. induction ls as [|l ls IH]; intros st; simpl; [reflexivity|].
  destruct (negb (Map_has (pages st) l)
            && Num.lt (Z.of_nat (Map_size (pages st))) maxPages); [|apply IH].
  rewrite H. destruct (rec2 l st); [apply IH | reflexivity].
Qed.

Lemma recursiveCrawl_ext (f g : string -> bool)
      (maxDepth maxPages : Q) (rateLimit : Z) :
  (forall path, f path = g path) ->
  forall fuel pageUrl depth st,
    recursiveCrawl fuel f maxDepth maxPages rateLimit pageUrl depth st
    = recursiveCrawl fuel g maxDepth maxPages rateLimit pageUrl depth st.
Proof.
  intros Hfg. induction fuel as [|fuel IH]; intros pageUrl depth st; simpl;
    [reflexivity|].
  destruct (Num.gt depth maxDepth
            || Num.ge (Z.of_nat (Map_size (pages st))) maxPages); [reflexivity|].
  destruct (Map_has (pages st) pageUrl); [reflexivity|].
  destruct (newURL pageUrl) as [urlObj|]; [|reflexivity].
  rewrite Hfg. destruct (negb (g (pathname urlObj))); [reflexivity|].
  destruct (crawlPage pageUrl 0 (sleep rateLimit (world st)))
    as [w [[md|]|e]]; try reflexivity.
  apply crawlLinks_ext. intros link s. apply IH.
Qed.

(** With a sitemap that lists at least one URL, the crawl is the
    sitemap loop and nothing else. *)
Lemma crawlWebsiteRun_sitemap (fuel : nat) (options : CrawlOptions)
      (w0 : World) (u : URL) :
  newURL (opt_url options) = Some u ->
  (1 <= List.length (snd (fetchSitemap (origin u ++ "/sitemap.xml") w0)))%nat ->
  crawlWebsiteRun fuel options w0
  = Some (Returned
            (crawlSitemapPages (rateLimitOf options)
               (slice0 (snd (fetchSitemap (origin u ++ "/sitemap.xml") w0))
                       (maxPagesOf options))
               (withWorld (mkCrawlState [] [] w0 [])
                          (fst (fetchSitemap (origin u ++ "/sitemap.xml") w0))),
             true)).
Proof.
  intros Hu Hn. unfold crawlWebsiteRun. rewrite Hu.
  destruct (fetchSitemap (origin u ++ "/sitemap.xml") w0) as [w1 sm].
  cbn [fst snd] in *.
  destruct (0 <? List.length sm)%nat eqn:E;
    [reflexivity | apply Nat.ltb_ge in E; lia].
Qed.
End CrawlEntries.

Lemma fetchSitemap_In {U : URLImpl} {P : Platform}
      (sitemapUrl : string) (w : World) (u : string) :
  In u (snd (fetchSitemap sitemapUrl w)) -> isSameDomain u sitemapUrl = true.
Proof.
  unfold fetchSitemap.
  destruct (getSitemap sitemapUrl w) as [w' [[entries|]|e]]; cbn [snd];
    try (intros []).
  intros H. apply filter_In in H. tauto.
Qed.

Lemma In_keys_entry (V : Type) (m : JsMap V) (k : string) :
  In k (Map_keys m) -> exists v, In (k, v) m.
Proof.
  unfold Map_keys. intros H. apply in_map_iff in H.
  destruct H as ([k' v] & <- & H). now exists v.
Qed.

(** X9.  On the recursive path the crawler never stores a page that the
    policy in force refuses: every key of the page map parses as a URL
    whose path the policy permits.  The policy in force is that of the
    fetched robots document for Googlebot, or the constant [true] when
    [respectRobotsTxt] is off. *)
Theorem recursive_crawl_respects_robots
        {U : URLImpl} {RE : RegExpImpl} {P : Platform}
        (fuel : nat) (options : CrawlOptions) (w0 : World) (st : CrawlState) :
  crawlWebsiteRun fuel options w0 = Some (Returned (st, false)) ->
  exists f,
    crawlPolicy options w0 = Some f
    /\ forall k, In k (Map_keys (pages st)) ->
                 exists urlObj,
                   newURL k = Some urlObj /\ f (pathname urlObj) = true.
Proof.
  unfold crawlWebsiteRun, crawlPolicy.
  destruct (newURL (opt_url options)) as [u|]; [|discriminate].
  destruct (fetchSitemap (origin u ++ "/sitemap.xml") w0) as [w1 sm].
  destruct (0 <? List.length sm)%nat; [discriminate|].
  destruct (fetchRobotsTxt (opt_url options) w1) as [w2 robotsTxt].
  destruct (if orDefault (opt_respectRobotsTxt options) true
            then robotsCanCrawl robotsTxt
            else Some (fun _ : string => true)) as [f|]; [|discriminate].
  match goal with
  | |- context [recursiveCrawl ?a ?b ?c ?d ?e ?g ?h ?i] =>
      destruct (recursiveCrawl a b c d e g h i) as [s|] eqn:E; [|discriminate]
  end.
  intros [= <-]. exists f. split; [reflexivity|].
  apply recursiveCrawl_entries in E. destruct E as (ext & He & Hf).
  cbn [pages withWorld app] in He. intros k Hk.
  apply In_keys_entry in Hk. destruct Hk as [md Hk]. rewrite He in Hk.
  rewrite Forall_forall in Hf. destruct (Hf _ Hk) as (Hperm & _). exact Hperm.
Qed.

(** On [robotsSite] the page [/admin] is linked and can be fetched, and
    the crawl leaves it out. *)
Lemma recursive_crawl_respects_robots_witness :
  exists st,
    crawlWebsiteRun (P := sitePlatform robotsSite) 5
                    (defaultOptions "https://example.com/") 0%Z
    = Some (Returned (st, false))
    /\ exists f, crawlPolicy (P := sitePlatform robotsSite)
                             (defaultOptions "https://example.com/") 0%Z
                 = Some f.
Proof.
  eexists. split; [vm_compute; reflexivity|].
  match goal with
  | |- exists f, ?c = Some f =>
      destruct (@recursive_crawl_respects_robots WhatwgURL JsRegexImpl
                  (sitePlatform robotsSite) 5
                  (defaultOptions "https://example.com/") 0%Z _ eq_refl)
        as (f & Hf & _)
  end.
  exists f. exact Hf.
Defined.

(** X10.  A crawl does not leave its host: on the recursive path every
    key of the page map has the host of the seed URL, on the sitemap
    path the host of the sitemap URL. *)
Theorem crawl_stays_on_host {U : URLImpl} {RE : RegExpImpl} {P : Platform}
        (fuel : nat) (options : CrawlOptions) (w0 : World) (st : CrawlState)
        (sitemapFound : bool) :
  crawlWebsiteRun fuel options w0 = Some (Returned (st, sitemapFound)) ->
  exists u,
    newURL (opt_url options) = Some u
    /\ forall k, In k (Map_keys (pages st)) ->
                 isSameDomain k (if sitemapFound
                                 then origin u ++ "/sitemap.xml"
                                 else opt_url options) = true.
Proof.
  unfold crawlWebsiteRun.
  destruct (newURL (opt_url options)) as [u|] eqn:Eu; [|discriminate].
  destruct (fetchSitemap (origin u ++ "/sitemap.xml") w0) as [w1 sm] eqn:Esm.
  destruct (0 <? List.length sm)%nat.
  - intros [= <- <-]. exists u. split; [reflexivity|]. intros k Hk.
    match type of Hk with
    | context [crawlSitemapPages ?r ?l ?s] =>
        destruct (crawlSitemapPages_spec r l s) as (_ & _ & _ & H4 & _);
        [constructor | constructor |]
    end.
    destruct (H4 k Hk) as [[]|Hin]. apply slice0_incl in Hin.
    apply (fetchSitemap_In (origin u ++ "/sitemap.xml") w0). now rewrite Esm.
  - destruct (fetchRobotsTxt (opt_url options) w1) as [w2 robotsTxt].
    destruct (if orDefault (opt_respectRobotsTxt options) true
              then robotsCanCrawl robotsTxt
              else Some (fun _ : string => true)) as [f|]; [|discriminate].
    match goal with
    | |- context [recursiveCrawl ?a ?b ?c ?d ?e ?g ?h ?i] =>
        destruct (recursiveCrawl a b c d e g h i) as [s|] eqn:E; [|discriminate]
    end.
    intros [= <- <-]. exists u. split; [reflexivity|].
    apply recursiveCrawl_entries in E. destruct E as (ext & He & Hf).
    cbn [pages withWorld app] in He. intros k Hk.
    apply In_keys_entry in Hk. destruct Hk as [md Hk]. rewrite He in Hk.
    rewrite Forall_forall in Hf. destruct (Hf _ Hk) as (_ & _ & Hdom & _).
    exact Hdom.
Qed.

(** The crawl of [robotsSite], whose home page also links to another
    host. *)
Lemma crawl_stays_on_host_witness :
  exists st u,
    crawlWebsiteRun (P := sitePlatform robotsSite) 5
                    (defaultOptions "https://example.com/") 0%Z
    = Some (Returned (st, false))
    /\ newURL (URLImpl := WhatwgURL) "https://example.com/" = Some u.
Proof.
  eexists.
  match goal with
  | |- exists u, ?run = Some (Returned (?st, false)) /\ _ =>
      destruct (@crawl_stays_on_host WhatwgURL JsRegexImpl
                  (sitePlatform robotsSite) 5
                  (defaultOptions "https://example.com/") 0%Z st false)
        as (u & Hu & _)
  end.
  - vm_compute. reflexivity.
  - exists u. split; [vm_compute; reflexivity | exact Hu].
Defined.

(** X11.  [recursiveCrawl] only appends to the page map: the pages it
    finds there stay where they are, a key already present keeps its
    page (the first fetch of a URL wins), and the error list is not
    touched. *)
Theorem recursiveCrawl_only_appends
        {U : URLImpl} {RE : RegExpImpl} {P : Platform}
        (fuel : nat) (canCrawlFn : string -> bool)
        (maxDepth maxPages : Q) (rateLimit : Z) (pageUrl : string) (depth : Z)
        (st st' : CrawlState) :
  recursiveCrawl fuel canCrawlFn maxDepth maxPages rateLimit pageUrl depth st
  = Some st' ->
  (exists ext, pages st' = (pages st ++ ext)%list)
  /\ (forall k, Map_has (pages st) k = true ->
                assoc k (pages st') = assoc k (pages st))
  /\ errors st' = errors st.
Proof.
  intros H. pose proof (recursiveCrawl_errors _ _ _ _ _ _ _ _ H) as He.
  apply recursiveCrawl_entries in H. destruct H as (ext & Hp & _).
  split; [now exists ext|]. split; [|exact He].
  intros k Hk. rewrite Hp. now apply assoc_app_present.
Qed.

(** A crawl entered with the home page already stored. *)
Lemma recursiveCrawl_only_appends_witness :
  exists st',
    recursiveCrawl (P := sitePlatform selfLinkSite) 5 (fun _ => true)
                   3 100 0 "https://example.com/about" 1 keptHomeState
    = Some st'
    /\ assoc "https://example.com/" (pages st')
       = assoc "https://example.com/" (pages keptHomeState).
Proof.
  eexists. split; [vm_compute; reflexivity|].
  match goal with
  | |- assoc ?k (pages ?s') = _ =>
      destruct (@recursiveCrawl_only_appends WhatwgURL JsRegexImpl
                  (sitePlatform selfLinkSite) 5 (fun _ => true)
                  3 100 0 "https://example.com/about" 1 keptHomeState
                  s' eq_refl) as (_ & Hk & _)
  end.
  apply Hk. reflexivity.
Defined.

(** X12.  When what [fetchRobotsTxt] returns is a text that holds no
    block for Googlebot (in particular when the robots document cannot
    be fetched, which gives the empty text), respecting robots changes
    nothing: the crawl is the one made with [respectRobotsTxt] off. *)
Theorem crawl_without_robots_block
        {U : URLImpl} {RE : RegExpImpl} {P : Platform}
        (fuel : nat) (options : CrawlOptions) (w0 : World) :
  (forall w,
      exists text,
        snd (fetchRobotsTxt (opt_url options) w) = TextData text
        /\ forall line, In line (Str.splitLines text) ->
                        entersBlock "Googlebot" line = false) ->
  crawlWebsiteRun fuel (withRespectRobots options true) w0
  = crawlWebsiteRun fuel (withRespectRobots options false) w0.
Proof.
  intros H. unfold crawlWebsiteRun, withRespectRobots.
  cbn [opt_url opt_maxDepth opt_maxPages opt_respectRobotsTxt opt_rateLimit
       orDefault].
  destruct (newURL (opt_url options)) as [u|]; [|reflexivity].
  destruct (fetchSitemap (origin u ++ "/sitemap.xml") w0) as [w1 sm].
  destruct (0 <? List.length sm)%nat; [reflexivity|].
  destruct (H w1) as (text & Htext & Hlines).
  destruct (fetchRobotsTxt (opt_url options) w1) as [w2 robotsTxt].
  cbn [snd] in Htext. subst robotsTxt.
  unfold robotsCanCrawl, Robots.parseRobotsText.
  rewrite (parseLines_outside_block _ _ Hlines). cbn [option_map].
  erewrite recursiveCrawl_ext; [reflexivity|].
  intros path. reflexivity.
Qed.

(** [selfLinkSite] has no robots document. *)
Lemma crawl_without_robots_block_witness :
  crawlWebsiteRun (P := sitePlatform selfLinkSite) 5
    (withRespectRobots (defaultOptions "https://example.com/") true) 0%Z
  = crawlWebsiteRun (P := sitePlatform selfLinkSite) 5
      (withRespectRobots (defaultOptions "https://example.com/") false) 0%Z.
Proof.
  apply crawl_without_robots_block.
  intros w. exists "". split; [reflexivity|].
  intros line [<-|[]]. vm_compute. reflexivity.
Defined.

Lemma crawlSitemapPages_robots_source {U : URLImpl} {P : Platform}
      (robots : string -> World -> World * Outcome ResponseData)
      (rateLimit : Z) (urls : list string) :
  forall (pg : JsMap PageMetadata) (er : list CrawlError) (w : World)
         (dl : list (string * Z)),
    stateView (crawlSitemapPages (P := withRobotsSource P robots)
                 rateLimit urls
                 (@mkCrawlState (withRobotsSource P robots) pg er w dl))
    = stateView (crawlSitemapPages (P := P) rateLimit urls
                   (@mkCrawlState P pg er w dl)).
Proof.
  induction urls as [|pageUrl rest IH]; intros pg er w dl; [reflexivity|].
  cbn [crawlSitemapPages world pages errors discovered].
  change (crawlPage (P := withRobotsSource P robots) pageUrl rateLimit w)
    with (crawlPage (P := P) pageUrl rateLimit w).
  destruct (crawlPage (P := P) pageUrl rateLimit w) as [w' [[md|]|e]].
  - apply IH.
  - unfold withWorld. cbn [pages errors discovered]. apply IH.
  - reflexivity.
Qed.

(** X13.  With a sitemap that lists at least one same-domain URL, the
    crawl is the loop over the first [maxPages] listed URLs and nothing
    else: its result depends on the seed, [maxPages] and [rateLimit]
    only.  [maxDepth], [respectRobotsTxt] and the fuel have no effect,
    and neither has the robots document: whatever answers the robots
    request, the pages stored, the errors, the discovery log and the
    final world are the same, the listed pages being fetched without
    consulting any robots policy. *)
Theorem sitemap_crawl_ignores_robots_and_depth
        {U : URLImpl} {RE : RegExpImpl} {P : Platform}
        (fuel fuel' : nat) (options options' : CrawlOptions) (w0 : World)
        (u : URL)
        (robots : string -> World -> World * Outcome ResponseData) :
  newURL (opt_url options) = Some u ->
  (1 <= List.length (snd (fetchSitemap (origin u ++ "/sitemap.xml") w0)))%nat ->
  opt_url options' = opt_url options ->
  maxPagesOf options' = maxPagesOf options ->
  rateLimitOf options' = rateLimitOf options ->
  runView (crawlWebsiteRun (P := withRobotsSource P robots) fuel' options' w0)
  = runView (crawlWebsiteRun (P := P) fuel options w0)
  /\ crawlWebsiteRun (P := P) fuel options w0
     = Some (Returned
               (crawlSitemapPages (rateLimitOf options)
                  (slice0 (snd (fetchSitemap (origin u ++ "/sitemap.xml") w0))
                          (maxPagesOf options))
                  (withWorld (mkCrawlState [] [] w0 [])
                             (fst (fetchSitemap (origin u ++ "/sitemap.xml")
                                                w0))),
                true)).
Proof.
  intros Hu Hn Eurl Emax Erate.
  split; [|exact (crawlWebsiteRun_sitemap fuel options w0 Hu Hn)].
  rewrite (crawlWebsiteRun_sitemap fuel options w0 Hu Hn).
  rewrite <- Eurl in Hu.
  rewrite (@crawlWebsiteRun_sitemap U RE (withRobotsSource P robots)
             fuel' options' w0 u Hu Hn).
  rewrite Emax, Erate. unfold runView, withWorld.
  cbn [pages errors discovered world].
  change (fetchSitemap (P := withRobotsSource P robots)
                       (origin u ++ "/sitemap.xml") w0)
    with (fetchSitemap (P := P) (origin u ++ "/sitemap.xml") w0).
  pose proof (crawlSitemapPages_robots_source robots (rateLimitOf options)
                (slice0 (snd (fetchSitemap (origin u ++ "/sitemap.xml") w0))
                        (maxPagesOf options))
                [] [] (fst (fetchSitemap (origin u ++ "/sitemap.xml") w0)) [])
    as Hv.
  apply (f_equal (fun v => Some (Returned (v, true)))) in Hv.
  exact Hv.
Qed.

(** The sitemap of [sitemapRobotsSite] lists [/admin], which its robots
    document closes; the sitemap crawl stores it, and stores the same
    pages when the robots request fails. *)
Lemma sitemap_crawl_ignores_robots_and_depth_witness :
  exists st,
    crawlWebsiteRun (P := sitePlatform sitemapRobotsSite) 5
                    (defaultOptions "https://example.com/") 0%Z
    = Some (Returned (st, true))
    /\ Map_keys (pages st)
       = ["https://example.com/"; "https://example.com/admin"]
    /\ runView (crawlWebsiteRun
                  (P := withRobotsSource (sitePlatform sitemapRobotsSite)
                          (fun _ w => (w, Thrown axiosNotFound)))
                  0 (mkCrawlOptions "https://example.com/" (Some 1%Q) None
                                    (Some false) None) 0%Z)
       = runView (crawlWebsiteRun (P := sitePlatform sitemapRobotsSite) 5
                                  (defaultOptions "https://example.com/") 0%Z).
Proof.
  eexists. split; [vm_compute; reflexivity|].
  split; [vm_compute; reflexivity|].
  apply (@sitemap_crawl_ignores_robots_and_depth WhatwgURL JsRegexImpl
           (sitePlatform sitemapRobotsSite) 5 0 _ _ 0%Z
           (Whatwg.mkUrl "https" "example.com" [""] None None)).
  - vm_compute. reflexivity.
  - vm_compute. lia.
  - reflexivity.
  - reflexivity.
  - reflexivity.
Defined.

(** ** Robots failures *)

Lemma directive_prefixes (t : string) :
  (Str.startsWith t "Disallow:" = true ->
   Str.startsWith t "User-agent:" = false /\ Str.startsWith t "Allow:" = false)
  /\ (Str.startsWith t "Allow:" = true -> Str.startsWith t "User-agent:" = false).
Proof.
  destruct t as [|c t]; [split; discriminate|].
  split; intros H.
  - change (Ascii.eqb "D" c && Str.startsWith t "isallow:" = true) in H.
    apply andb_true_iff in H. destruct H as [H _].
    apply Ascii.eqb_eq in H. subst c. split; reflexivity.
  - change (Ascii.eqb "A" c && Str.startsWith t "llow:" = true) in H.
    apply andb_true_iff in H. destruct H as [H _].
    apply Ascii.eqb_eq in H. subst c. reflexivity.
Qed.

Lemma entersBlock_agent_truthy (userAgent line : string) :
  userAgent <> "" -> entersBlock userAgent line = true ->
  Str.truthy (Str.trim (Str.replace (Str.trim line) "User-agent:" "")) = true.
Proof.
  unfold entersBlock. intros Hne H. apply andb_true_iff in H.
  destruct H as [_ H]. apply orb_true_iff in H.
  destruct H as [H|H]; apply String.eqb_eq in H; rewrite H;
    [destruct userAgent; [congruence | reflexivity] | reflexivity].
Qed.

(** X14.  A rule whose pattern [RegExp] rejects makes [parseRobotsText]
    throw, when the rule stands in a block for the requested identity:
    for a document that starts with a line opening such a block,
    followed by a [Disallow] or an [Allow] line with a non-empty value
    that does not compile, there is no policy. *)
Theorem parseRobotsText_rejected_pattern {RE : RegExpImpl}
        (userAgent line rule rest directive : string) :
  userAgent <> "" ->
  entersBlock userAgent line = true ->
  Str.splitLines line = [line] ->
  Str.splitLines rule = [rule] ->
  directive = "Disallow:" \/ directive = "Allow:" ->
  Str.startsWith (Str.trim rule) directive = true ->
  Str.trim (Str.replace (Str.trim rule) directive "") <> "" ->
  Robots.compilePattern (Str.trim (Str.replace (Str.trim rule) directive ""))
  = None ->
  Robots.parseRobotsText (line ++ LF ++ rule ++ LF ++ rest) userAgent = None.
Proof.
  intros Hua He Hl Hr Hd Hs Hne Hc.
  unfold Robots.parseRobotsText, Str.splitLines, LF in *. cbn [append].
  rewrite !split_app, Hl, Hr. cbn [app Robots.parseLines].
  rewrite (step_enters_block _ _ _ He).
  assert (Hstep : Robots.step userAgent
            (Robots.mkParseState
               (Str.trim (Str.replace (Str.trim line) "User-agent:" ""))
               [] [] (Robots.canSitemap Robots.initState)) rule = None).
  { unfold Robots.step. cbn [Robots.currentAgent].
    rewrite (entersBlock_agent_truthy _ Hua He). cbn [andb].
    assert (Ht : Str.truthy (Str.trim (Str.replace (Str.trim rule) directive ""))
                 = true)
      by (destruct (Str.trim (Str.replace (Str.trim rule) directive ""));
          [congruence | reflexivity]).
    destruct (directive_prefixes (Str.trim rule)) as [HD HA].
    destruct Hd as [-> | ->].
    - destruct (HD Hs) as [-> ->]. now rewrite Hs, Ht, Hc.
    - rewrite (HA Hs), Hs, Ht, Hc. reflexivity. }
  now rewrite Hstep.
Qed.

(** The robots document of [badRobotsSite]. *)
Lemma parseRobotsText_rejected_pattern_witness :
  Robots.parseRobotsText (RE := JsRegexImpl)
    ("User-agent: *" ++ LF ++ "Disallow: /admin(old" ++ LF ++ "") "Googlebot"
  = None.
Proof.
  apply (@parseRobotsText_rejected_pattern JsRegexImpl "Googlebot"
           "User-agent: *" "Disallow: /admin(old" "" "Disallow:");
    try (vm_compute; reflexivity).
  - discriminate.
  - now left.
  - vm_compute. discriminate.
Defined.

(** X15.  A crawl that falls back to link following and respects robots
    fails as a whole when the robots document has no policy, because
    [parseRobotsText] throws on it (a pattern that [RegExp] rejects, or
    a body that is not a string): it throws an error whose message
    starts with [Crawl failed: ], whatever the fuel, and stores
    nothing. *)
Theorem crawl_aborts_without_policy
        {U : URLImpl} {RE : RegExpImpl} {P : Platform}
        (fuel : nat) (options : CrawlOptions) (w0 : World) (u : URL) :
  newURL (opt_url options) = Some u ->
  snd (fetchSitemap (origin u ++ "/sitemap.xml") w0) = [] ->
  orDefault (opt_respectRobotsTxt options) true = true ->
  robotsCanCrawl
    (snd (fetchRobotsTxt (opt_url options)
                         (fst (fetchSitemap (origin u ++ "/sitemap.xml") w0))))
  = None ->
  exists e,
    crawlWebsiteRun fuel options w0 = Some (Thrown e)
    /\ crawlWebsite fuel options w0 = Some (Thrown e)
    /\ Str.startsWith (err_message e) "Crawl failed: " = true.
Proof.
  intros Hu Hsm Hr Hp. unfold crawlWebsite, crawlWebsiteRun. rewrite Hu.
  destruct (fetchSitemap (origin u ++ "/sitemap.xml") w0) as [w1 sm].
  cbn [fst snd] in *. subst sm. cbn [List.length Nat.ltb Nat.leb].
  destruct (fetchRobotsTxt (opt_url options) w1) as [w2 robotsTxt].
  cbn [snd] in Hp. rewrite Hr, Hp.
  eexists. split; [reflexivity|]. split; reflexivity.
Qed.

(** The crawl of [badRobotsSite]. *)
Lemma crawl_aborts_without_policy_witness :
  exists e,
    crawlWebsite (P := sitePlatform badRobotsSite) 5
                 (defaultOptions "https://example.com/") 0%Z
    = Some (Thrown e).
Proof.
  destruct (@crawl_aborts_without_policy WhatwgURL JsRegexImpl
              (sitePlatform badRobotsSite) 5
              (defaultOptions "https://example.com/") 0%Z
              (Whatwg.mkUrl "https" "example.com" [""] None None))
    as (e & _ & H & _); try (vm_compute; reflexivity).
  exists e. exact H.
Defined.

(** ** Link health, continued *)

Section LinkMore.
Context {U : URLImpl} {P : Platform}.

Lemma checkLink_shape (u : string) (timeout : Z) (w : World) :
  exists w' ls,
    checkLink u timeout w = (w', Returned ls)
    /\ ls_url ls = u
    /\ (ls_isWorking ls = false -> brokenEntry ls).
Proof.
  unfold checkLink, brokenEntry, is404, isTimeout.
  destruct (headRequest u timeout w) as [w' [response|e]].
  - eexists. eexists. split; [reflexivity|]. cbn. split; [reflexivity|].
    intros H. split; [exact H|]. split; [|apply andb_false_r].
    apply andb_false_iff in H. lia.
  - match goal with
    | |- context [if ?c then _ else _] => destruct c
    end; eexists; eexists; (split; [reflexivity|]); cbn;
      (split; [reflexivity|]); intros _;
      (split; [reflexivity|]); (split; [lia | reflexivity]).
Qed.

Lemma checkOne_broken (domain : string) (externalTimeout rateLimit : Z)
      (st : CheckState) (u : string) :
  cs_broken (checkOne domain externalTimeout rateLimit st u) = cs_broken st
  \/ exists l,
      cs_broken (checkOne domain externalTimeout rateLimit st u)
      = (cs_broken st ++ [l])%list
      /\ ls_url l = u /\ brokenEntry l.
Proof.
  unfold checkOne.
  destruct (checkLink_shape u
              (if isSameDomain u domain then DEFAULT_TIMEOUT else externalTimeout)
              (sleep rateLimit (cs_world st))) as (w' & ls & -> & Hu & Hb).
  destruct (ls_isWorking ls) eqn:E; cbn [cs_broken]; [now left|].
  right. exists ls. split; [reflexivity|]. split; [exact Hu | now apply Hb].
Qed.

Lemma checkLoop_broken (domain : string) (externalTimeout rateLimit : Z)
      (ls : list string) :
  forall st,
    Forall brokenEntry (cs_broken st) ->
    NoDup (map ls_url (cs_broken st) ++ ls) ->
    Forall brokenEntry
      (cs_broken (fold_left (checkOne domain externalTimeout rateLimit) ls st))
    /\ NoDup (map ls_url
                 (cs_broken (fold_left (checkOne domain externalTimeout rateLimit)
                                       ls st)))
    /\ forall l,
         In l (cs_broken (fold_left (checkOne domain externalTimeout rateLimit)
                                    ls st)) ->
         In l (cs_broken st) \/ In (ls_url l) ls.
Proof.
  induction ls as [|u ls IH]; intros st Hf Hnd; cbn [fold_left].
  - rewrite app_nil_r in Hnd. repeat split; auto.
  - destruct (checkOne_broken domain externalTimeout rateLimit st u)
      as [E | (l & E & Hu & Hb)].
    + destruct (IH (checkOne domain externalTimeout rateLimit st u))
        as (H1 & H2 & H3).
      * now rewrite E.
      * rewrite E. now apply NoDup_remove_1 in Hnd.
      * refine (conj H1 (conj H2 _)). intros l Hl.
        destruct (H3 l Hl) as [H|H]; [left; now rewrite <- E | right; now right].
    + destruct (IH (checkOne domain externalTimeout rateLimit st u))
        as (H1 & H2 & H3).
      * rewrite E. apply Forall_app. split; [assumption|].
        constructor; [assumption | constructor].
      * rewrite E, map_app. cbn [map]. rewrite Hu, <- app_assoc. exact Hnd.
      * refine (conj H1 (conj H2 _)). intros l' Hl.
        destruct (H3 l' Hl) as [H|H]; [|right; now right].
        rewrite E in H. apply in_app_iff in H.
        destruct H as [H|[<-|[]]]; [now left | right; left; now rewrite Hu].
Qed.

Lemma filters_disjoint (A : Type) (f g : A -> bool) (l : list A) :
  Forall (fun x => f x && g x = false) l ->
  (List.length (filter f l) + List.length (filter g l) <= List.length l)%nat.
Proof.
  induction 1 as [|x l Hx _ IH]; simpl; [lia|].
  destruct (f x), (g x); simpl in *; try discriminate; lia.
Qed.
End LinkMore.

(** X17.  Every entry of the broken list of a link check is marked not
    working, has a status outside [200, 400) and carries the URL of a
    candidate link; no URL has two entries. *)
Theorem broken_links_are_broken {U : URLImpl} {P : Platform}
        (options : CheckLinksOptions)
        (readCrawlData : string -> option (list PageMetadata)) (w0 : World)
        (r : BrokenLinkResult) :
  checkBrokenLinks options readCrawlData w0 = Returned r ->
  (forall l, In l (brokenLinks r) ->
             ls_isWorking l = false
             /\ ~ (200 <= ls_status l < 400)%Z
             /\ In (ls_url l)
                   (candidateLinks options (readCrawlData (domainOf options))))
  /\ NoDup (map ls_url (brokenLinks r)).
Proof.
  intros Hr.
  destruct (checkBrokenLinks_returned _ _ _ Hr)
    as (st & allLinks & -> & -> & Hb & _).
  rewrite Hb.
  match goal with
  | |- context [fold_left (checkOne ?d ?e ?rl) ?ls ?s] =>
      destruct (checkLoop_broken d e rl ls s) as (H1 & H2 & H3)
  end.
  - constructor.
  - cbn. apply Set_addAll_NoDup. constructor.
  - split; [|exact H2]. intros l Hl.
    rewrite Forall_forall in H1. destruct (H1 l Hl) as (Hw & Hs & _).
    refine (conj Hw (conj Hs _)).
    destruct (H3 l Hl) as [[]|Hin].
    apply Set_addAll_In in Hin. destruct Hin as [[]|Hin]. exact Hin.
Qed.

(** The link check of [probeSite]. *)
Lemma broken_links_are_broken_witness :
  exists r,
    checkBrokenLinks (P := sitePlatform probeSite) probeOptions
                     (fun _ => None) 0%Z = Returned r
    /\ NoDup (map ls_url (brokenLinks r)).
Proof.
  eexists. split; [vm_compute; reflexivity|].
  refine (proj2 (@broken_links_are_broken WhatwgURL (sitePlatform probeSite)
                   probeOptions (fun _ => None) 0%Z _ _)).
  vm_compute. reflexivity.
Defined.

(** X18.  In every result of a link check no broken entry is counted
    both as a 404 and as a timeout, so [total404] and [totalTimeouts]
    together do not exceed the number of broken entries, which does not
    exceed [totalChecked]. *)
Theorem summary_counts_bounded {U : URLImpl} {P : Platform}
        (options : CheckLinksOptions)
        (readCrawlData : string -> option (list PageMetadata)) (w0 : World)
        (r : BrokenLinkResult) :
  checkBrokenLinks options readCrawlData w0 = Returned r ->
  (total404 (summary r) + totalTimeouts (summary r)
   <= List.length (brokenLinks r))%nat
  /\ (List.length (brokenLinks r) <= totalChecked r)%nat.
Proof.
  intros Hr.
  destruct (checkBrokenLinks_returned _ _ _ Hr)
    as (st & allLinks & -> & -> & Hb & Hw & Ht & Hs).
  rewrite Hs, Hb, Ht. split.
  - cbn [summarize total404 totalTimeouts]. apply filters_disjoint.
    match goal with
    | |- context [fold_left (checkOne ?d ?e ?rl) ?ls ?s] =>
        destruct (checkLoop_broken d e rl ls s) as (H1 & _)
    end.
    + constructor.
    + cbn. apply Set_addAll_NoDup. constructor.
    + eapply Forall_impl; [|exact H1]. intros l (_ & _ & H). exact H.
  - match goal with
    | |- context [fold_left (checkOne ?d ?e ?rl) ?ls ?s] =>
        destruct (checkLoop_counts d e rl ls s) as [H _]
    end.
    cbn in H. lia.
Qed.

(** The link check of [probeSite]: one 404, one timeout, two broken
    entries, three links checked. *)
Lemma summary_counts_bounded_witness :
  exists r,
    checkBrokenLinks (P := sitePlatform probeSite) probeOptions
                     (fun _ => None) 0%Z = Returned r
    /\ (List.length (brokenLinks r) <= totalChecked r)%nat.
Proof.
  eexists. split; [vm_compute; reflexivity|].
  refine (proj2 (@summary_counts_bounded WhatwgURL (sitePlatform probeSite)
                   probeOptions (fun _ => None) 0%Z _ _)).
  vm_compute. reflexivity.
Defined.

(** ** The seed of a recursive crawl *)

Lemma recursiveCrawl_first {U : URLImpl} {RE : RegExpImpl} {P : Platform}
      (fuel : nat) (canCrawlFn : string -> bool)
      (maxDepth maxPages : Q) (rateLimit : Z) (pageUrl : string) (depth : Z)
      (st st' : CrawlState) :
  recursiveCrawl fuel canCrawlFn maxDepth maxPages rateLimit pageUrl depth st
  = Some st' ->
  pages st' = pages st
  \/ exists md rest, pages st' = (pages st ++ (pageUrl, md) :: rest)%list.
Proof.
  destruct fuel as [|fuel]; simpl; [discriminate|].
  destruct (Num.gt depth maxDepth
            || Num.ge (Z.of_nat (Map_size (pages st))) maxPages);
    [intros [= <-]; now left|].
  destruct (Map_has (pages st) pageUrl) eqn:Ehas; [intros [= <-]; now left|].
  destruct (newURL pageUrl) as [urlObj|]; [|intros [= <-]; now left].
  destruct (negb (canCrawlFn (pathname urlObj))); [intros [= <-]; now left|].
  destruct (crawlPage pageUrl 0 (sleep rateLimit (world st)))
    as [w [[md|]|e]]; try (intros [= <-]; now left).
  intros H. right. exists md.
  apply crawlLinks_entries with (canCrawlFn := canCrawlFn) in H.
  - destruct H as (ext & He & _). cbn [pages] in He.
    rewrite Map_set_fresh in He by assumption.
    exists ext. now rewrite He, <- app_assoc.
  - intros link s s' Hs. now apply recursiveCrawl_entries in Hs.
Qed.

(** X19.  On the recursive path the seed comes first: the page map is
    either empty, which is the case when the seed itself is not stored
    (refused by the policy, not fetched, or no room for it), or its
    first key is the seed URL, first in the discovery log at depth 0. *)
Theorem recursive_crawl_starts_at_seed
        {U : URLImpl} {RE : RegExpImpl} {P : Platform}
        (fuel : nat) (options : CrawlOptions) (w0 : World) (st : CrawlState) :
  crawlWebsiteRun fuel options w0 = Some (Returned (st, false)) ->
  pages st = []
  \/ exists md rest,
      pages st = (opt_url options, md) :: rest
      /\ url md = opt_url options.
Proof.
  unfold crawlWebsiteRun.
  destruct (newURL (opt_url options)) as [u|]; [|discriminate].
  destruct (fetchSitemap (origin u ++ "/sitemap.xml") w0) as [w1 sm].
  destruct (0 <? List.length sm)%nat; [discriminate|].
  destruct (fetchRobotsTxt (opt_url options) w1) as [w2 robotsTxt].
  destruct (if orDefault (opt_respectRobotsTxt options) true
            then robotsCanCrawl robotsTxt
            else Some (fun _ : string => true)) as [f|]; [|discriminate].
  match goal with
  | |- context [recursiveCrawl ?a ?b ?c ?d ?e ?g ?h ?i] =>
      destruct (recursiveCrawl a b c d e g h i) as [s|] eqn:E; [|discriminate]
  end.
  intros [= <-]. pose proof E as Hent. apply recursiveCrawl_entries in Hent.
  apply recursiveCrawl_first in E. cbn [pages withWorld app] in E.
  destruct E as [E | (md & rest & E)]; [now left|].
  right. exists md, rest. split; [exact E|].
  destruct Hent as (ext & He & Hf). cbn [pages withWorld app] in He.
  rewrite He in E. subst ext. inversion Hf as [|kv l (_ & Hurl & _) _]; subst.
  exact Hurl.
Qed.

(** The crawl of [robotsSite] starts with its home page. *)
Lemma recursive_crawl_starts_at_seed_witness :
  exists st,
    crawlWebsiteRun (P := sitePlatform robotsSite) 5
                    (defaultOptions "https://example.com/") 0%Z
    = Some (Returned (st, false))
    /\ (pages st = []
        \/ exists md rest, pages st = ("https://example.com/", md) :: rest).
Proof.
  eexists. split; [vm_compute; reflexivity|].
  match goal with
  | |- pages ?s = [] \/ _ =>
      destruct (@recursive_crawl_starts_at_seed WhatwgURL JsRegexImpl
                  (sitePlatform robotsSite) 5
                  (defaultOptions "https://example.com/") 0%Z s eq_refl)
        as [H | (md & rest & H & _)]
  end.
  - left. exact H.
  - right. exists md, rest. exact H.
Defined.
